(** * Go Playground MCP server: result normalisation and composition

    A shallow embedding of the TypeScript sources
    - [types.ts]              (type guards, [validateGoCode], [processEvents]),
    - [go-playground-client.ts] ([handleApiError], [processRunResponse],
      [runGoCode], [shareGoCode], [runAndShareGoCode]),
    - [mcp-server.ts]         (the presenters and the tool router),
    together with the properties the specification states about them.

    Conventions of the embedding.
    - A JavaScript string is the list of its UTF-16 code units.
    - The numbers that occur ([Status], [exitCode], an HTTP status, a
      timeout) are integers; they are rendered in decimal, as
      [Number.prototype.toString] renders an integer below 10^21.
    - [undefined] or an absent property of a typed record is [None].
    - The two HTTP requests are the only effects that are modelled; they are
      the nodes of a small free monad, interpreted against a remote service
      while the requests that were issued are logged.  [console.error] is
      left out. *)

From Stdlib Require Import ZArith NArith List String Ascii Lia Decimal DecimalZ.
From stdpp Require Import base list gmap countable.
Import ListNotations.

#[local] Set Warnings "-register-all".
#[local] Open Scope N_scope.

(** ** Strings *)

Abbreviation jsstring := (list N).

(** An ASCII literal of the source, as code units. *)
Definition str (s : string) : jsstring :=
  List.map N_of_ascii (list_ascii_of_string s).

Arguments str : simpl never.

(** [s === ''] *)
Definition is_empty_string (s : jsstring) : bool :=
  match s with [] => true | _ :: _ => false end.

(** ECMAScript [WhiteSpace] and [LineTerminator] code points, the ones that
    [String.prototype.trim] strips; all of them are single code units. *)
Definition isWhiteSpace (c : N) : bool :=
  (c =? 0x0009) || (c =? 0x000A) || (c =? 0x000B) || (c =? 0x000C) ||
  (c =? 0x000D) || (c =? 0x0020) || (c =? 0x00A0) || (c =? 0x1680) ||
  ((0x2000 <=? c) && (c <=? 0x200A)) ||
  (c =? 0x2028) || (c =? 0x2029) || (c =? 0x202F) || (c =? 0x205F) ||
  (c =? 0x3000) || (c =? 0xFEFF).

Fixpoint trimStart (s : jsstring) : jsstring :=
  match s with
  | [] => []
  | c :: s' => if isWhiteSpace c then trimStart s' else s
  end.

Definition trimEnd (s : jsstring) : jsstring := rev (trimStart (rev s)).

Definition trim (s : jsstring) : jsstring := trimEnd (trimStart s).

(** [Array.prototype.join] on an array of strings. *)
Fixpoint join (sep : jsstring) (parts : list jsstring) : jsstring :=
  match parts with
  | [] => []
  | [p] => p
  | p :: rest => p ++ sep ++ join sep rest
  end.

(** [Array.prototype.includes] on an array of strings. *)
Definition includes (xs : list jsstring) (x : jsstring) : bool :=
  existsb (fun y => bool_decide (y = x)) xs.

(** [String.prototype.includes]: is [needle] a substring of [hay]? *)
Fixpoint starts_with (needle hay : jsstring) : bool :=
  match needle, hay with
  | [], _ => true
  | _ :: _, [] => false
  | a :: needle', b :: hay' => (a =? b) && starts_with needle' hay'
  end.

Fixpoint contains (needle hay : jsstring) : bool :=
  starts_with needle hay ||
  match hay with
  | [] => false
  | _ :: hay' => contains needle hay'
  end.

(** Decimal rendering of an integer. *)
Fixpoint uint_units (d : Decimal.uint) : jsstring :=
  match d with
  | Decimal.Nil => []
  | Decimal.D0 d => 48 :: uint_units d
  | Decimal.D1 d => 49 :: uint_units d
  | Decimal.D2 d => 50 :: uint_units d
  | Decimal.D3 d => 51 :: uint_units d
  | Decimal.D4 d => 52 :: uint_units d
  | Decimal.D5 d => 53 :: uint_units d
  | Decimal.D6 d => 54 :: uint_units d
  | Decimal.D7 d => 55 :: uint_units d
  | Decimal.D8 d => 56 :: uint_units d
  | Decimal.D9 d => 57 :: uint_units d
  end.

Definition number_to_string (z : Z) : jsstring :=
  match Z.to_int z with
  | Decimal.Pos d => uint_units d
  | Decimal.Neg d => 45 :: uint_units d
  end.

(** The text after the last line feed of [s]. *)
Fixpoint last_line_from (cur s : jsstring) : jsstring :=
  match s with
  | [] => cur
  | c :: s' => if c =? 10 then last_line_from s' s' else last_line_from cur s'
  end.

Definition last_line (s : jsstring) : jsstring := last_line_from s s.

(** ** types.ts: the data model *)

Abbreviation GoCode := (list N).
Abbreviation ShareUrl := (list N).

Definition createGoCode (code : jsstring) : GoCode := code.
Definition createShareUrl (url : jsstring) : ShareUrl := url.

Inductive EventKind : Type := stdout | stderr | exit.

Definition EventKind_eqb (a b : EventKind) : bool :=
  match a, b with
  | stdout, stdout | stderr, stderr | exit, exit => true
  | _, _ => false
  end.

Record GoPlaygroundEvent : Type := {
  Message : jsstring;
  Kind : EventKind;
  Delay : Z
}.

(** [Events?: readonly GoPlaygroundEvent[] | null] *)
Inductive EventsField : Type :=
| EventsAbsent
| EventsNull
| EventsArray (events : list GoPlaygroundEvent).

Record GoPlaygroundResponse : Type := {
  Errors : jsstring;
  Events : EventsField;
  Status : Z;
  IsTest : bool;
  TestsFailed : Z;
  VetOK : option bool
}.

Record GoPlaygroundRunRequest : Type := {
  version : Z;
  body : GoCode;
  withVet : option bool
}.

Record MCPGoPlaygroundSuccess : Type := {
  s_output : jsstring;
  s_exitCode : Z;
  s_shareUrl : option ShareUrl
}.

Record MCPGoPlaygroundFailure : Type := {
  f_errors : jsstring;
  f_exitCode : option Z;
  f_shareUrl : option ShareUrl
}.

(** The union discriminated by [success]. *)
Inductive MCPGoPlaygroundResult : Type :=
| Success (r : MCPGoPlaygroundSuccess)
| Failure (r : MCPGoPlaygroundFailure).

Definition success (r : MCPGoPlaygroundResult) : bool :=
  match r with Success _ => true | Failure _ => false end.

Definition exitCode (r : MCPGoPlaygroundResult) : option Z :=
  match r with
  | Success s => Some (s_exitCode s)
  | Failure f => f_exitCode f
  end.

Definition shareUrl (r : MCPGoPlaygroundResult) : option ShareUrl :=
  match r with
  | Success s => s_shareUrl s
  | Failure f => f_shareUrl f
  end.

Record GoPlaygroundConfig : Type := {
  baseUrl : jsstring;
  frontendUrl : jsstring;
  timeout : Z
}.

(** [Partial<GoPlaygroundConfig>] *)
Record PartialConfig : Type := {
  p_baseUrl : option jsstring;
  p_frontendUrl : option jsstring;
  p_timeout : option Z
}.

Inductive ToolName : Type :=
| RUN_GO_CODE
| SHARE_GO_CODE
| RUN_AND_SHARE_GO_CODE.

Definition tool_name_string (t : ToolName) : jsstring :=
  match t with
  | RUN_GO_CODE => str "run_go_code"
  | SHARE_GO_CODE => str "share_go_code"
  | RUN_AND_SHARE_GO_CODE => str "run_and_share_go_code"
  end.

(** [Object.values(TOOL_NAMES)] *)
Definition TOOL_NAMES : list jsstring :=
  List.map tool_name_string [RUN_GO_CODE; SHARE_GO_CODE; RUN_AND_SHARE_GO_CODE].

Inductive GoPlaygroundErrorCode : Type :=
| NETWORK_ERROR
| COMPILATION_ERROR
| RUNTIME_ERROR
| VALIDATION_ERROR
| SHARE_ERROR.

Definition error_code_string (c : GoPlaygroundErrorCode) : jsstring :=
  match c with
  | NETWORK_ERROR => str "NETWORK_ERROR"
  | COMPILATION_ERROR => str "COMPILATION_ERROR"
  | RUNTIME_ERROR => str "RUNTIME_ERROR"
  | VALIDATION_ERROR => str "VALIDATION_ERROR"
  | SHARE_ERROR => str "SHARE_ERROR"
  end.

Record GoPlaygroundError : Type := {
  message : jsstring;
  code : GoPlaygroundErrorCode;
  statusCode : option Z
}.

Definition createGoPlaygroundError
    (msg : jsstring) (c : GoPlaygroundErrorCode) (st : option Z)
  : GoPlaygroundError :=
  {| message := msg; code := c; statusCode := st |}.

(** [Result<T, E>] *)
Inductive Result (T E : Type) : Type :=
| Ok (data : T)
| Err (error : E).

Arguments Ok {T E} data.
Arguments Err {T E} error.

(** ** Untyped values: the argument bag of a tool call *)

Inductive JsValue : Type :=
| JUndefined
| JNull
| JBool (b : bool)
| JNumber (z : Z)
| JString (s : jsstring)
| JArray (items : list JsValue)
| JObject (props : gmap (list N) JsValue).

Inductive JsType : Type :=
| TUndefined | TObject | TBoolean | TNumber | TString.

Definition JsType_eqb (a b : JsType) : bool :=
  match a, b with
  | TUndefined, TUndefined | TObject, TObject | TBoolean, TBoolean
  | TNumber, TNumber | TString, TString => true
  | _, _ => false
  end.

(** [typeof v] *)
Definition typeof (v : JsValue) : JsType :=
  match v with
  | JUndefined => TUndefined
  | JNull => TObject
  | JBool _ => TBoolean
  | JNumber _ => TNumber
  | JString _ => TString
  | JArray _ => TObject
  | JObject _ => TObject
  end.

(** [key in v], for a [v] that passed [typeof v === 'object' && v !== null];
    neither [Object.prototype] nor [Array.prototype] has a property [code]
    or [withVet], the two keys that are asked for. *)
Definition has_property (key : jsstring) (v : JsValue) : bool :=
  match v with
  | JObject props => bool_decide (is_Some (props !! key))
  | _ => false
  end.

(** [v[key]] under the same guard. *)
Definition get_property (key : jsstring) (v : JsValue) : JsValue :=
  match v with
  | JObject props => default JUndefined (props !! key)
  | _ => JUndefined
  end.

Definition is_null (v : JsValue) : bool :=
  match v with JNull => true | _ => false end.

(** ** types.ts: guards and processors *)

Definition isGoCode (value : JsValue) : bool :=
  match value with
  | JString s => (0 <? length (trim s))%nat
  | _ => false
  end.

Definition isValidToolName (value : JsValue) : bool :=
  match value with
  | JString s => includes TOOL_NAMES s
  | _ => false
  end.

Definition isRunGoCodeArgs (args : JsValue) : bool :=
  JsType_eqb (typeof args) TObject &&
  negb (is_null args) &&
  has_property (str "code") args &&
  isGoCode (get_property (str "code") args) &&
  (negb (has_property (str "withVet") args) ||
   JsType_eqb (typeof (get_property (str "withVet") args)) TBoolean).

Definition isShareGoCodeArgs (args : JsValue) : bool :=
  JsType_eqb (typeof args) TObject &&
  negb (is_null args) &&
  has_property (str "code") args &&
  isGoCode (get_property (str "code") args).

Definition isRunAndShareGoCodeArgs (args : JsValue) : bool :=
  JsType_eqb (typeof args) TObject &&
  negb (is_null args) &&
  has_property (str "code") args &&
  isGoCode (get_property (str "code") args) &&
  (negb (has_property (str "withVet") args) ||
   JsType_eqb (typeof (get_property (str "withVet") args)) TBoolean).

Definition validateGoCode (c : jsstring) : Result GoCode GoPlaygroundError :=
  if negb (isGoCode (JString c)) then
    Err (createGoPlaygroundError
           (str "Invalid Go code: code must be a non-empty string")
           VALIDATION_ERROR None)
  else Ok (createGoCode c).

Record ProcessedOutput : Type := {
  output : jsstring;
  hasErrors : bool
}.

Definition processEvents (events : list GoPlaygroundEvent) : ProcessedOutput :=
  if (length events =? 0)%nat then {| output := []; hasErrors := false |}
  else
    let stdoutEvents :=
      List.filter (fun event => EventKind_eqb (Kind event) stdout) events in
    let stderrEvents :=
      List.filter (fun event => EventKind_eqb (Kind event) stderr) events in
    let out :=
      join [] (List.filter (fun m => negb (is_empty_string m))
                           (List.map (fun event => Message event) stdoutEvents)) in
    {| output := out; hasErrors := (0 <? length stderrEvents)%nat |}.

(** ** The remote service and the requests sent to it *)

(** What a [catch (error)] clause can receive. *)
Inductive Thrown : Type :=
| AxiosError (status : option Z) (msg : jsstring)
    (* [error.response?.status] and [error.message] *)
| ThrownGoPlaygroundError (e : GoPlaygroundError)
| NativeError (msg : jsstring)       (* any other [instanceof Error] *)
| ThrownValue (rendered : jsstring). (* anything else, with [String(error)] *)

(** A settled promise of [client.post]. *)
Inductive HttpOutcome (A : Type) : Type :=
| Resolved (data : A)
| Rejected (error : Thrown).

Arguments Resolved {A} data.
Arguments Rejected {A} error.

(** [response.data] of the [/compile] request: declared as a
    [GoPlaygroundResponse], checked at run time by [processRunResponse].
    A body that is an object is taken to have the declared fields. *)
Inductive ResponseData : Type :=
| DataUndefined
| DataNull
| DataBool (b : bool)
| DataNumber (z : Z)
| DataString (s : jsstring)
| DataObject (r : GoPlaygroundResponse).

(** [!result] *)
Definition data_falsy (d : ResponseData) : bool :=
  match d with
  | DataUndefined | DataNull => true
  | DataBool b => negb b
  | DataNumber z => (z =? 0)%Z
  | DataString s => is_empty_string s
  | DataObject _ => false
  end.

Definition data_typeof (d : ResponseData) : JsType :=
  match d with
  | DataUndefined => TUndefined
  | DataNull => TObject
  | DataBool _ => TBoolean
  | DataNumber _ => TNumber
  | DataString _ => TString
  | DataObject _ => TObject
  end.

(** Programs that talk to the playground: a free monad over the two
    requests.  Each request carries the configuration of the HTTP client
    that sends it ([baseURL], [timeout]). *)
Inductive Client (A : Type) : Type :=
| Return (a : A)
| PostCompile (cfg : GoPlaygroundConfig) (req : GoPlaygroundRunRequest)
              (k : HttpOutcome ResponseData -> Client A)
| PostShare (cfg : GoPlaygroundConfig) (payload : GoCode)
            (k : HttpOutcome jsstring -> Client A).

Arguments Return {A} a.
Arguments PostCompile {A} cfg req k.
Arguments PostShare {A} cfg payload k.

Fixpoint bind {A B : Type} (p : Client A) (f : A -> Client B) : Client B :=
  match p with
  | Return a => f a
  | PostCompile cfg req k => PostCompile cfg req (fun r => bind (k r) f)
  | PostShare cfg payload k => PostShare cfg payload (fun r => bind (k r) f)
  end.

Declare Scope client_scope.
Delimit Scope client_scope with client.
Notation "x <- p ;; q" := (bind p (fun x => q))
  (at level 100, p at next level, right associativity) : client_scope.
#[local] Open Scope client_scope.

(** [await client.post('/compile', request, ...)] and
    [await client.post('/share', request.body, ...)] *)
Definition post_compile (cfg : GoPlaygroundConfig) (req : GoPlaygroundRunRequest)
  : Client (HttpOutcome ResponseData) :=
  PostCompile cfg req Return.

Definition post_share (cfg : GoPlaygroundConfig) (payload : GoCode)
  : Client (HttpOutcome jsstring) :=
  PostShare cfg payload Return.

(** The remote service: how it settles each request. *)
Record Remote : Type := {
  compile : GoPlaygroundConfig -> GoPlaygroundRunRequest -> HttpOutcome ResponseData;
  share : GoPlaygroundConfig -> GoCode -> HttpOutcome jsstring
}.

Inductive Call : Type :=
| CompileCall (cfg : GoPlaygroundConfig) (req : GoPlaygroundRunRequest)
| ShareCall (cfg : GoPlaygroundConfig) (payload : GoCode).

(** Running a program against a remote service: its value and the
    requests it issued, oldest first. *)
Fixpoint exec {A : Type} (w : Remote) (p : Client A) : A * list Call :=
  match p with
  | Return a => (a, [])
  | PostCompile cfg req k =>
      let (a, calls) := exec w (k (compile w cfg req)) in
      (a, CompileCall cfg req :: calls)
  | PostShare cfg payload k =>
      let (a, calls) := exec w (k (share w cfg payload)) in
      (a, ShareCall cfg payload :: calls)
  end.

Definition value_of {A : Type} (w : Remote) (p : Client A) : A := fst (exec w p).
Definition calls_of {A : Type} (w : Remote) (p : Client A) : list Call := snd (exec w p).

(** ** go-playground-client.ts *)

Definition createDefaultConfig : GoPlaygroundConfig :=
  {| baseUrl := str "https://play.golang.org";
     frontendUrl := str "https://go.dev/play";
     timeout := 30000 |}.

(** [{ ...createDefaultConfig(), ...config }] *)
Definition finalConfig (config : PartialConfig) : GoPlaygroundConfig :=
  {| baseUrl := default (baseUrl createDefaultConfig) (p_baseUrl config);
     frontendUrl := default (frontendUrl createDefaultConfig) (p_frontendUrl config);
     timeout := default (timeout createDefaultConfig) (p_timeout config) |}.

Definition handleApiError (error : Thrown) : MCPGoPlaygroundFailure :=
  match error with
  | AxiosError statusCode msg =>
      {| f_errors :=
           str "HTTP Error: " ++
           match statusCode with
           | Some st => number_to_string st
           | None => str "unknown"
           end ++ str " - " ++ msg;
         f_exitCode := None; f_shareUrl := None |}
  | ThrownGoPlaygroundError e =>
      {| f_errors :=
           str "GoPlayground Error [" ++ error_code_string (code e) ++
           str "]: " ++ message e;
         f_exitCode := None; f_shareUrl := None |}
  | NativeError msg =>
      {| f_errors := str "Unexpected error: " ++ msg;
         f_exitCode := None; f_shareUrl := None |}
  | ThrownValue rendered =>
      {| f_errors := str "Unexpected error: " ++ rendered;
         f_exitCode := None; f_shareUrl := None |}
  end.

(** [result.Events?.filter(...) ?? []] and [result.Events ?? []] *)
Definition events_or_empty (e : EventsField) : list GoPlaygroundEvent :=
  match e with
  | EventsArray events => events
  | EventsAbsent | EventsNull => []
  end.

Definition invalid_response : MCPGoPlaygroundResult :=
  Failure {| f_errors := str "Invalid response from Go Playground API";
             f_exitCode := None; f_shareUrl := None |}.

Definition processRunResponse (result : ResponseData) : MCPGoPlaygroundResult :=
  if data_falsy result || negb (JsType_eqb (data_typeof result) TObject)
  then invalid_response
  else
    match result with
    | DataObject result =>
        if negb (is_empty_string (Errors result)) &&
           negb (is_empty_string (trim (Errors result)))
        then Failure {| f_errors := Errors result;
                        f_exitCode := Some (Status result);
                        f_shareUrl := None |}
        else
          let stderrEvents :=
            List.filter (fun event => EventKind_eqb (Kind event) stderr)
                        (events_or_empty (Events result)) in
          if (0 <? length stderrEvents)%nat
          then
            let errorMessages :=
              join [] (List.map (fun event => Message event) stderrEvents) in
            Failure {| f_errors := errorMessages;
                       f_exitCode := Some (Status result);
                       f_shareUrl := None |}
          else
            let processedOutput := processEvents (events_or_empty (Events result)) in
            Success {| s_output := output processedOutput;
                       s_exitCode := Status result;
                       s_shareUrl := None |}
    | _ => invalid_response (* excluded by the test above *)
    end.

(** [withVet: boolean = true] *)
Definition runGoCode (config : PartialConfig) (c : jsstring) (vet : option bool)
  : Client MCPGoPlaygroundResult :=
  match validateGoCode c with
  | Err error =>
      Return (Failure {| f_errors := message error;
                         f_exitCode := None; f_shareUrl := None |})
  | Ok data =>
      let request :=
        {| version := 2; body := data; withVet := Some (default true vet) |} in
      response <- post_compile (finalConfig config) request ;;
      match response with
      | Resolved data => Return (processRunResponse data)
      | Rejected error => Return (Failure (handleApiError error))
      end
  end.

(** [Promise<ShareUrl | null>]: [None] is [null]. *)
Definition shareGoCode (config : PartialConfig) (c : jsstring)
  : Client (option ShareUrl) :=
  match validateGoCode c with
  | Err _ => Return None
  | Ok data =>
      response <- post_share (finalConfig config) data ;;
      match response with
      | Resolved shareId =>
          Return (Some (createShareUrl
                          (frontendUrl (finalConfig config) ++ str "/p/" ++ shareId)))
      | Rejected _ => Return None
      end
  end.

Definition runAndShareGoCode (config : PartialConfig) (c : jsstring) (vet : option bool)
  : Client MCPGoPlaygroundResult :=
  match validateGoCode c with
  | Err error =>
      Return (Failure {| f_errors := message error;
                         f_exitCode := None; f_shareUrl := None |})
  | Ok validatedCode =>
      runResult <- runGoCode config validatedCode (Some (default true vet)) ;;
      url <- shareGoCode config validatedCode ;;
      (* [{ ...runResult, shareUrl: shareUrl ?? undefined }] *)
      match runResult with
      | Success r =>
          Return (Success {| s_output := s_output r;
                             s_exitCode := s_exitCode r;
                             s_shareUrl := url |})
      | Failure r =>
          Return (Failure {| f_errors := f_errors r;
                             f_exitCode := f_exitCode r;
                             f_shareUrl := url |})
      end
  end.

(** ** mcp-server.ts: the presenters *)

Definition LF : jsstring := [10].
Definition CHECK_MARK : jsstring := [0x2705].
Definition CROSS_MARK : jsstring := [0x274C].
Definition WARNING_SIGN : jsstring := [0x26A0; 0xFE0F].

Definition exit_code_line (c : Z) : jsstring :=
  str "**Exit Code:** " ++ number_to_string c.

Definition formatSuccessResponse (result : MCPGoPlaygroundSuccess) : jsstring :=
  let parts :=
    [ CHECK_MARK ++ str " Code executed successfully!" ++ LF;
      str "**Output:**";
      str "```";
      (if is_empty_string (s_output result) then str "(no output)"
       else s_output result);
      str "```" ++ LF;
      exit_code_line (s_exitCode result) ] in
  join LF parts.

Definition formatFailureResponse (result : MCPGoPlaygroundFailure) : jsstring :=
  let parts :=
    [ CROSS_MARK ++ str " Code execution failed!" ++ LF;
      str "**Errors:**";
      str "```";
      f_errors result;
      str "```" ++ LF ] in
  let parts :=
    match f_exitCode result with
    | Some c => parts ++ [exit_code_line c]
    | None => parts
    end in
  join LF parts.

Definition formatRunResponse (result : MCPGoPlaygroundResult) : jsstring :=
  match result with
  | Success r => formatSuccessResponse r
  | Failure r => formatFailureResponse r
  end.

(** [if (result.shareUrl)]: [undefined] and the empty string are falsy. *)
Definition formatRunAndShareResponse (result : MCPGoPlaygroundResult) : jsstring :=
  let runResponse := formatRunResponse result in
  let parts := [runResponse] in
  let parts :=
    match shareUrl result with
    | Some url =>
        if is_empty_string url
        then parts ++ [LF ++ WARNING_SIGN ++ str " Failed to generate share URL"]
        else parts ++ [LF ++ str "**Share URL:** " ++ url]
    | None => parts ++ [LF ++ WARNING_SIGN ++ str " Failed to generate share URL"]
    end in
  join [] parts.

Record TextContent : Type := { text : jsstring }.

Record MCPToolResponse : Type := { content : list TextContent }.

Definition createSuccessResponse (t : jsstring) : MCPToolResponse :=
  {| content := [ {| text := t |} ] |}.

Definition createErrorResponse (error : Thrown) : MCPToolResponse :=
  let errorMessage :=
    match error with
    | ThrownGoPlaygroundError goError =>
        str "Error [" ++ error_code_string (code goError) ++ str "]: " ++
        message goError
    | AxiosError _ msg | NativeError msg => str "Error: " ++ msg
    | ThrownValue rendered => str "Unexpected error: " ++ rendered
    end in
  {| content := [ {| text := errorMessage |} ] |}.

(** ** mcp-server.ts: handlers and router *)

(** [const { code, withVet = true } = args], for [args] that passed the
    guard of their tool. *)
Definition args_code (args : JsValue) : jsstring :=
  match get_property (str "code") args with
  | JString s => s
  | _ => []
  end.

Definition args_withVet (args : JsValue) : bool :=
  match get_property (str "withVet") args with
  | JBool b => b
  | _ => true
  end.

(** The clients are created with the default configuration,
    [createGoPlaygroundClient()]. *)
Definition noConfig : PartialConfig :=
  {| p_baseUrl := None; p_frontendUrl := None; p_timeout := None |}.

Definition runGoCodeHandler (args : JsValue) : Client MCPToolResponse :=
  result <- runGoCode noConfig (args_code args) (Some (args_withVet args)) ;;
  Return (createSuccessResponse (formatRunResponse result)).

Definition shareGoCodeHandler (args : JsValue) : Client MCPToolResponse :=
  url <- shareGoCode noConfig (args_code args) ;;
  let responseText :=
    match url with
    | Some u =>
        if is_empty_string u
        then CROSS_MARK ++ str " Failed to share code. Please try again."
        else CHECK_MARK ++ str " Code shared successfully!" ++ LF ++ LF ++
             str "**Share URL:** " ++ u
    | None => CROSS_MARK ++ str " Failed to share code. Please try again."
    end in
  Return (createSuccessResponse responseText).

Definition runAndShareGoCodeHandler (args : JsValue) : Client MCPToolResponse :=
  result <- runAndShareGoCode noConfig (args_code args) (Some (args_withVet args)) ;;
  Return (createSuccessResponse (formatRunAndShareResponse result)).

Definition invalid_arguments (t : ToolName) : MCPToolResponse :=
  createErrorResponse
    (ThrownGoPlaygroundError
       (createGoPlaygroundError
          (str "Invalid arguments for " ++ tool_name_string t)
          VALIDATION_ERROR None)).

(** The [switch] of [createToolRouter]; its [default] branch is
    [assertNever], which the type [ToolName] leaves without a case. *)
Definition router (toolName : ToolName) (args : JsValue) : Client MCPToolResponse :=
  match toolName with
  | RUN_GO_CODE =>
      if negb (isRunGoCodeArgs args) then Return (invalid_arguments RUN_GO_CODE)
      else runGoCodeHandler args
  | SHARE_GO_CODE =>
      if negb (isShareGoCodeArgs args) then Return (invalid_arguments SHARE_GO_CODE)
      else shareGoCodeHandler args
  | RUN_AND_SHARE_GO_CODE =>
      if negb (isRunAndShareGoCodeArgs args)
      then Return (invalid_arguments RUN_AND_SHARE_GO_CODE)
      else runAndShareGoCodeHandler args
  end.

(** The narrowing [name is ToolName] that [isValidToolName] licenses. *)
Definition as_ToolName (name : jsstring) : option ToolName :=
  List.find (fun t => bool_decide (tool_name_string t = name))
            [RUN_GO_CODE; SHARE_GO_CODE; RUN_AND_SHARE_GO_CODE].

(** The [CallToolRequestSchema] handler of [setupToolHandlers], on
    [request.params = { name, arguments: args }]. *)
Definition callTool (name : jsstring) (args : JsValue) : Client MCPToolResponse :=
  if negb (isValidToolName (JString name)) then
    Return (createErrorResponse
              (ThrownGoPlaygroundError
                 (createGoPlaygroundError (str "Unknown tool: " ++ name)
                                          VALIDATION_ERROR None)))
  else
    match as_ToolName name with
    | Some toolName => router toolName args
    | None =>
        (* not reached, see [isValidToolName_narrows]; the source would throw
           from [assertNever] and answer from the [catch] clause *)
        Return (createErrorResponse (NativeError (str "Unexpected value: " ++ name)))
    end.

(** ** mcp-server.ts: the advertised tools *)

(** One entry of [properties] in an input schema. *)
Record PropertySchema : Type := {
  ps_type : jsstring;
  ps_description : jsstring;
  ps_default : option JsValue
}.

Record InputSchema : Type := {
  schema_type : jsstring;
  properties : list (list N * PropertySchema);
  required : list jsstring
}.

Record Tool : Type := {
  tool_name : jsstring;
  tool_description : jsstring;
  inputSchema : InputSchema
}.

Definition createToolDefinitions : list Tool :=
  [ {| tool_name := tool_name_string RUN_GO_CODE;
       tool_description :=
         str "Run Go code in the Go Playground and return execution results";
       inputSchema :=
         {| schema_type := str "object";
            properties :=
              [ (str "code",
                 {| ps_type := str "string";
                    ps_description := str "The Go code to execute";
                    ps_default := None |});
                (str "withVet",
                 {| ps_type := str "boolean";
                    ps_description :=
                      str "Whether to run go vet on the code (default: true)";
                    ps_default := Some (JBool true) |}) ];
            required := [str "code"] |} |};
    {| tool_name := tool_name_string SHARE_GO_CODE;
       tool_description := str "Share Go code and get a shareable URL";
       inputSchema :=
         {| schema_type := str "object";
            properties :=
              [ (str "code",
                 {| ps_type := str "string";
                    ps_description := str "The Go code to share";
                    ps_default := None |}) ];
            required := [str "code"] |} |};
    {| tool_name := tool_name_string RUN_AND_SHARE_GO_CODE;
       tool_description :=
         str "Run Go code and get both execution results and a shareable URL";
       inputSchema :=
         {| schema_type := str "object";
            properties :=
              [ (str "code",
                 {| ps_type := str "string";
                    ps_description := str "The Go code to execute and share";
                    ps_default := None |});
                (str "withVet",
                 {| ps_type := str "boolean";
                    ps_description :=
                      str "Whether to run go vet on the code (default: true)";
                    ps_default := Some (JBool true) |}) ];
            required := [str "code"] |} |} ].

(** The string that [typeof] evaluates to. *)
Definition typeof_name (t : JsType) : jsstring :=
  match t with
  | TUndefined => str "undefined"
  | TObject => str "object"
  | TBoolean => str "boolean"
  | TNumber => str "number"
  | TString => str "string"
  end.

(** The guard that the [switch] of the router applies for a tool. *)
Definition tool_guard (t : ToolName) (args : JsValue) : bool :=
  match t with
  | RUN_GO_CODE => isRunGoCodeArgs args
  | SHARE_GO_CODE => isShareGoCodeArgs args
  | RUN_AND_SHARE_GO_CODE => isRunAndShareGoCodeArgs args
  end.

(** A code unit that [trim] does not strip. *)
Definition visible (c : N) : Prop := isWhiteSpace c = false.

(** What a success report shows as output. *)
Definition shown_output (out : jsstring) : jsstring :=
  if is_empty_string out then str "(no output)" else out.

(** The part of a success report before its [Exit Code] line. *)
Definition success_report_head (out : jsstring) : jsstring :=
  CHECK_MARK ++ str " Code executed successfully!" ++ LF ++ LF ++
  str "**Output:**" ++ LF ++ str "```" ++ LF ++ shown_output out ++ LF ++
  str "```" ++ LF.

(** The warning that stands for a missing share link. *)
Definition share_warning : jsstring :=
  WARNING_SIGN ++ str " Failed to generate share URL".

(** The text that the report of a result shows for it. *)
Definition shown_payload (r : MCPGoPlaygroundResult) : jsstring :=
  match r with
  | Success s => shown_output (s_output s)
  | Failure f => f_errors f
  end.

(** The configuration of the HTTP client that sent a request. *)
Definition call_config (c : Call) : GoPlaygroundConfig :=
  match c with
  | CompileCall cfg _ => cfg
  | ShareCall cfg _ => cfg
  end.

(** ** Vocabulary of the specification *)

(** The concatenation of all [stderr] payloads of an event stream, in
    emission order. *)
Fixpoint stderr_text (events : list GoPlaygroundEvent) : jsstring :=
  match events with
  | [] => []
  | e :: rest =>
      match Kind e with
      | stderr => Message e ++ stderr_text rest
      | _ => stderr_text rest
      end
  end.

(** The concatenation of the [stdout] payloads of an event stream, in
    emission order, the empty payloads being skipped. *)
Fixpoint stdout_text (events : list GoPlaygroundEvent) : jsstring :=
  match events with
  | [] => []
  | e :: rest =>
      match Kind e with
      | stdout =>
          if is_empty_string (Message e) then stdout_text rest
          else Message e ++ stdout_text rest
      | _ => stdout_text rest
      end
  end.

(** A response that is an object (and so is not [null]). *)
Definition is_object (d : ResponseData) : bool :=
  match d with DataObject _ => true | _ => false end.

(** The text a result carries: the output of a success, the errors of a
    failure. *)
Definition payload (r : MCPGoPlaygroundResult) : jsstring :=
  match r with
  | Success s => s_output s
  | Failure f => f_errors f
  end.

(** A result with a share link attached. *)
Definition with_shareUrl (r : MCPGoPlaygroundResult) (url : option ShareUrl)
  : MCPGoPlaygroundResult :=
  match r with
  | Success s =>
      Success {| s_output := s_output s; s_exitCode := s_exitCode s; s_shareUrl := url |}
  | Failure f =>
      Failure {| f_errors := f_errors f; f_exitCode := f_exitCode f; f_shareUrl := url |}
  end.

(** A failure that names an error code in its text, the way
    [handleApiError] and [createErrorResponse] render a
    [GoPlaygroundError]; a result has no other place for a code. *)
Definition names_code (c : GoPlaygroundErrorCode) (r : MCPGoPlaygroundResult) : bool :=
  match r with
  | Success _ => false
  | Failure f => contains (error_code_string c) (f_errors f)
  end.


(** The part of a failure report that every failure has. *)
Definition failure_report_head (errors : jsstring) : jsstring :=
  CROSS_MARK ++ str " Code execution failed!" ++ LF ++ LF ++
  str "**Errors:**" ++ LF ++ str "```" ++ LF ++ errors ++ LF ++ str "```" ++ LF.

(** The uniform error response of the router. *)
Definition error_response (c : GoPlaygroundErrorCode) (msg : jsstring) : MCPToolResponse :=
  {| content :=
       [ {| text := str "Error [" ++ error_code_string c ++ str "]: " ++ msg |} ] |}.

(** The response [r] with its [Events] field replaced. *)
Definition with_Events (r : GoPlaygroundResponse) (e : EventsField)
  : GoPlaygroundResponse :=
  {| Errors := Errors r; Events := e; Status := Status r;
     IsTest := IsTest r; TestsFailed := TestsFailed r; VetOK := VetOK r |}.

(** The request that [runGoCode] sends for a program and a vet flag. *)
Definition run_request (c : GoCode) (vet : option bool) : GoPlaygroundRunRequest :=
  {| version := 2; body := c; withVet := Some (default true vet) |}.

(** ** Sample inputs *)

Definition event (k : EventKind) (m : string) : GoPlaygroundEvent :=
  {| Message := str m; Kind := k; Delay := 0 |}.

Definition response (errs : string) (events : EventsField) (st : Z)
  : GoPlaygroundResponse :=
  {| Errors := str errs; Events := events; Status := st;
     IsTest := false; TestsFailed := 0; VetOK := None |}.

(** Compile-error text that is a single space, next to ordinary output. *)
Definition blank_errors_response : GoPlaygroundResponse :=
  response " " (EventsArray [event stdout "hi"]) 0.

Definition syntax_error_response : GoPlaygroundResponse :=
  response "syntax error: unexpected }"
           (EventsArray [event stdout "partial"; event stderr "panic"]) 2.

Definition panic_response : GoPlaygroundResponse :=
  response ""
           (EventsArray [event stderr "panic: "; event stdout "before";
                         event stderr "boom"; event exit ""]) 2.

Definition hello_response : GoPlaygroundResponse :=
  response ""
           (EventsArray [event stdout "hel"; event stdout ""; event exit "";
                         event stdout "lo"]) 0.

Definition hello_code : jsstring := str "package main".

(** A service that runs every program to [hello_response] and shares it
    under the identifier [abc123]. *)
Definition friendly_remote : Remote :=
  {| compile := fun _ _ => Resolved (DataObject hello_response);
     share := fun _ _ => Resolved (str "abc123") |}.

(** A service that runs programs but whose share endpoint answers 503. *)
Definition share_down_remote : Remote :=
  {| compile := fun _ _ => Resolved (DataObject hello_response);
     share := fun _ _ =>
       Rejected (AxiosError (Some 503%Z) (str "Request failed with status code 503")) |}.

(** A service that does not answer in time. *)
Definition timeout_remote : Remote :=
  {| compile := fun _ _ =>
       Rejected (AxiosError None (str "timeout of 30000ms exceeded"));
     share := fun _ _ =>
       Rejected (AxiosError None (str "timeout of 30000ms exceeded")) |}.

(** A service whose compile endpoint answers 502. *)
Definition bad_gateway_remote : Remote :=
  {| compile := fun _ _ =>
       Rejected (AxiosError (Some 502%Z) (str "Request failed with status code 502"));
     share := fun _ _ => Resolved (str "abc123") |}.

(** ** Lemmas on strings *)

Lemma is_empty_string_true (s : jsstring) : is_empty_string s = true <-> s = [].
Proof. destruct s; simpl; split; congruence. Qed.

Lemma is_empty_string_false (s : jsstring) : is_empty_string s = false <-> s <> [].
Proof. destruct s; simpl; split; congruence. Qed.


Lemma trim_empty : trim [] = [].
Proof. reflexivity. Qed.

Lemma trim_nonempty (s : jsstring) : trim s <> [] -> s <> [].
Proof. intros H ->. apply H, trim_empty. Qed.

Lemma join_empty_separator (parts : list jsstring) : join [] parts = concat parts.
Proof.
  induction parts as [|p rest IH]; [reflexivity|].
  destruct rest as [|q rest].
  - simpl. now rewrite app_nil_r.
  - change (join [] (p :: q :: rest)) with (p ++ [] ++ join [] (q :: rest)).
    rewrite IH. reflexivity.
Qed.

Lemma last_line_from_after (cur a b : jsstring) :
  last_line_from cur (a ++ 10 :: b) = last_line b.
Proof.
  revert cur. induction a as [|c a IH]; intros cur; simpl.
  - reflexivity.
  - destruct (c =? 10); apply IH.
Qed.

Lemma last_line_from_single (cur b : jsstring) :
  Forall (fun c => c <> 10) b -> last_line_from cur b = cur.
Proof.
  intros H. revert cur. induction H as [|c b Hc _ IH]; intros cur; simpl.
  - reflexivity.
  - apply N.eqb_neq in Hc. rewrite Hc. apply IH.
Qed.

Lemma last_line_after (a b : jsstring) :
  Forall (fun c => c <> 10) b -> last_line (a ++ LF ++ b) = b.
Proof.
  intros H. unfold last_line, LF. simpl.
  rewrite last_line_from_after. now apply last_line_from_single.
Qed.

Lemma uint_units_digits (d : Decimal.uint) :
  Forall (fun c => 48 <= c <= 57) (uint_units d).
Proof. induction d; simpl; constructor; (lia || assumption). Qed.

Lemma number_to_string_one_line (z : Z) :
  Forall (fun c => c <> 10) (number_to_string z).
Proof.
  assert (Hd : forall d, Forall (fun c => c <> 10) (uint_units d)).
  { intros d. apply (List.Forall_impl _ (P := fun c => 48 <= c <= 57));
      [intros c Hc; lia | apply uint_units_digits]. }
  unfold number_to_string. destruct (Z.to_int z); [apply Hd|].
  constructor; [lia | apply Hd].
Qed.

Lemma exit_code_line_one_line (c : Z) :
  Forall (fun u => u <> 10) (exit_code_line c).
Proof.
  unfold exit_code_line. apply Forall_app. split.
  - vm_compute. repeat constructor; discriminate.
  - apply number_to_string_one_line.
Qed.

Lemma exit_code_line_nonempty (c : Z) : exit_code_line c <> [].
Proof. unfold exit_code_line. discriminate. Qed.

(** ** Lemmas on event streams *)

Lemma stderr_text_filter (events : list GoPlaygroundEvent) :
  join [] (List.map (fun event => Message event)
             (List.filter (fun event => EventKind_eqb (Kind event) stderr) events))
  = stderr_text events.
Proof.
  rewrite join_empty_separator.
  induction events as [|e rest IH]; [reflexivity|].
  simpl. destruct (Kind e); simpl; now rewrite IH.
Qed.

Lemma stdout_text_filter (events : list GoPlaygroundEvent) :
  join [] (List.filter (fun m => negb (is_empty_string m))
             (List.map (fun event => Message event)
                (List.filter (fun event => EventKind_eqb (Kind event) stdout) events)))
  = stdout_text events.
Proof.
  rewrite join_empty_separator.
  induction events as [|e rest IH]; [reflexivity|].
  simpl. destruct (Kind e); simpl; try apply IH.
  destruct (is_empty_string (Message e)); simpl; now rewrite IH.
Qed.

Lemma processEvents_output (events : list GoPlaygroundEvent) :
  output (processEvents events) = stdout_text events.
Proof.
  unfold processEvents. destruct events as [|e rest]; [reflexivity|].
  cbv beta iota zeta delta [length Nat.eqb output].
  apply stdout_text_filter.
Qed.

Lemma some_stderr_filter (events : list GoPlaygroundEvent) :
  Exists (fun e => Kind e = stderr) events ->
  (0 <? length (List.filter (fun event => EventKind_eqb (Kind event) stderr) events))%nat
  = true.
Proof.
  induction 1 as [e rest He | e rest _ IH]; simpl.
  - now rewrite He.
  - destruct (EventKind_eqb (Kind e) stderr); [reflexivity | exact IH].
Qed.

Lemma no_stderr_filter (events : list GoPlaygroundEvent) :
  Forall (fun e => Kind e <> stderr) events ->
  List.filter (fun event => EventKind_eqb (Kind event) stderr) events = [].
Proof.
  induction 1 as [|e rest He _ IH]; simpl; [reflexivity|].
  destruct (Kind e); simpl; congruence.
Qed.

(** The three branches of the classifier on an object. *)
Lemma processRunResponse_compile_error (r : GoPlaygroundResponse) :
  trim (Errors r) <> [] ->
  processRunResponse (DataObject r)
  = Failure {| f_errors := Errors r; f_exitCode := Some (Status r); f_shareUrl := None |}.
Proof.
  intros H. unfold processRunResponse. simpl.
  apply is_empty_string_false in H as Ht. rewrite Ht.
  apply trim_nonempty, is_empty_string_false in H. now rewrite H.
Qed.

Lemma processRunResponse_runtime_error (r : GoPlaygroundResponse) :
  trim (Errors r) = [] ->
  Exists (fun e => Kind e = stderr) (events_or_empty (Events r)) ->
  processRunResponse (DataObject r)
  = Failure {| f_errors := stderr_text (events_or_empty (Events r));
               f_exitCode := Some (Status r); f_shareUrl := None |}.
Proof.
  intros Ht He. unfold processRunResponse. simpl.
  rewrite Ht, andb_false_r. simpl.
  rewrite (some_stderr_filter _ He). now rewrite stderr_text_filter.
Qed.

Lemma processRunResponse_success (r : GoPlaygroundResponse) :
  trim (Errors r) = [] ->
  Forall (fun e => Kind e <> stderr) (events_or_empty (Events r)) ->
  processRunResponse (DataObject r)
  = Success {| s_output := stdout_text (events_or_empty (Events r));
               s_exitCode := Status r; s_shareUrl := None |}.
Proof.
  intros Ht He. unfold processRunResponse. simpl.
  rewrite Ht, andb_false_r. simpl.
  rewrite (no_stderr_filter _ He). simpl.
  now rewrite processEvents_output.
Qed.

(** ** The response classifier (specification, section 4.3) *)

(** C1, as stated, fails: compile-error text that is not empty but blank (a
    single space here) does not make the classifier answer [Failure]; with
    no [stderr] event the response is classified as a [Success]. *)
Lemma C1_blank_errors_counterexample :
  Errors blank_errors_response <> [] /\
  processRunResponse (DataObject blank_errors_response)
  = Success {| s_output := str "hi"; s_exitCode := 0; s_shareUrl := None |} /\
  processRunResponse (DataObject blank_errors_response)
  <> Failure {| f_errors := Errors blank_errors_response;
                f_exitCode := Some (Status blank_errors_response);
                f_shareUrl := None |}.
Proof. repeat split; [discriminate | discriminate]. Qed.

(** C1, amended: for every response whose compile-error text is non-empty
    after trimming white space, the classifier returns [Failure] with
    [errors] equal to that (untrimmed) text and [exitCode] equal to
    [Status], whatever the [Events] of the response are. *)
Theorem C1_compile_error_precedence (r : GoPlaygroundResponse) :
  trim (Errors r) <> [] ->
  processRunResponse (DataObject r)
  = Failure {| f_errors := Errors r;
               f_exitCode := Some (Status r);
               f_shareUrl := None |}.
Proof. apply processRunResponse_compile_error. Qed.

(** C1 at a response with a syntax error, a [stdout] and a [stderr] event. *)
Lemma C1_compile_error_precedence_witness :
  trim (Errors syntax_error_response) <> [] /\
  processRunResponse (DataObject syntax_error_response)
  = Failure {| f_errors := str "syntax error: unexpected }";
               f_exitCode := Some 2%Z;
               f_shareUrl := None |}.
Proof.
  split; [vm_compute; discriminate|].
  apply (C1_compile_error_precedence syntax_error_response).
  vm_compute; discriminate.
Defined.

(** C2: for every response with empty compile-error text and at least one
    event tagged [stderr], the classifier returns [Failure] with [errors]
    equal to the concatenation of all [stderr] messages in emission order
    and [exitCode] equal to [Status]. *)
Theorem C2_runtime_error
    (r : GoPlaygroundResponse) (events : list GoPlaygroundEvent) :
  Errors r = [] ->
  Events r = EventsArray events ->
  Exists (fun e => Kind e = stderr) events ->
  processRunResponse (DataObject r)
  = Failure {| f_errors := stderr_text events;
               f_exitCode := Some (Status r);
               f_shareUrl := None |}.
Proof.
  intros Herr Hev Hex.
  rewrite processRunResponse_runtime_error; rewrite ?Herr, ?Hev; auto.
Qed.

(** C2 at a response with two [stderr] events around a [stdout] event. *)
Lemma C2_runtime_error_witness :
  processRunResponse (DataObject panic_response)
  = Failure {| f_errors := str "panic: boom";
               f_exitCode := Some 2%Z;
               f_shareUrl := None |}.
Proof.
  apply (C2_runtime_error panic_response
           [event stderr "panic: "; event stdout "before";
            event stderr "boom"; event exit ""]).
  - reflexivity.
  - reflexivity.
  - apply Exists_cons_hd. reflexivity.
Defined.

(** C3: for every response with empty compile-error text and no [stderr]
    event (the [Events] field may be absent or [null]), the classifier
    returns [Success] with [output] equal to the concatenation of all
    non-empty [stdout] messages in emission order and [exitCode] equal to
    [Status]. *)
Theorem C3_success_output (r : GoPlaygroundResponse) :
  Errors r = [] ->
  Forall (fun e => Kind e <> stderr) (events_or_empty (Events r)) ->
  processRunResponse (DataObject r)
  = Success {| s_output := stdout_text (events_or_empty (Events r));
               s_exitCode := Status r;
               s_shareUrl := None |}.
Proof.
  intros Herr Hev. apply processRunResponse_success; [|exact Hev].
  now rewrite Herr.
Qed.

(** C3 at a response whose [stdout] events are interleaved with an empty
    one and an [exit] event. *)
Lemma C3_success_output_witness :
  processRunResponse (DataObject hello_response)
  = Success {| s_output := str "hello"; s_exitCode := 0; s_shareUrl := None |}.
Proof.
  apply (C3_success_output hello_response).
  - reflexivity.
  - simpl. repeat constructor; discriminate.
Defined.

(** C10: the classifier is a total function, and on degenerate responses
    - a [null] or non-object response gives the [Failure] with the fixed
      text [Invalid response from Go Playground API] and no [exitCode];
    - an absent or [null] [Events] field is classified as an empty event
      list is;
    - a response with empty [Errors] and no events gives [Success] with
      empty [output] and [exitCode] equal to [Status]. *)
Theorem C10_degenerate_responses (d : ResponseData) (r : GoPlaygroundResponse) :
  (is_object d = false ->
   processRunResponse d
   = Failure {| f_errors := str "Invalid response from Go Playground API";
                f_exitCode := None;
                f_shareUrl := None |}) /\
  (Events r = EventsAbsent \/ Events r = EventsNull ->
   processRunResponse (DataObject r)
   = processRunResponse (DataObject (with_Events r (EventsArray [])))) /\
  (Errors r = [] ->
   Events r = EventsAbsent \/ Events r = EventsNull \/ Events r = EventsArray [] ->
   processRunResponse (DataObject r)
   = Success {| s_output := []; s_exitCode := Status r; s_shareUrl := None |}).
Proof.
  split; [|split].
  - intros Hd. destruct d as [| |b|z|s|r']; try discriminate Hd; try reflexivity.
    + unfold processRunResponse. simpl. now destruct b.
    + unfold processRunResponse. simpl. now destruct (z =? 0)%Z.
    + unfold processRunResponse. simpl. now destruct (is_empty_string s).
  - intros Hev. unfold processRunResponse. simpl.
    destruct Hev as [-> | ->]; reflexivity.
  - intros Herr Hev.
    rewrite processRunResponse_success.
    + destruct Hev as [-> | [-> | ->]]; reflexivity.
    + now rewrite Herr.
    + destruct Hev as [-> | [-> | ->]]; constructor.
Qed.

(** C10 at [null] and at an object without events. *)
Lemma C10_degenerate_responses_witness :
  processRunResponse DataNull
  = Failure {| f_errors := str "Invalid response from Go Playground API";
               f_exitCode := None;
               f_shareUrl := None |} /\
  processRunResponse (DataObject (response "" EventsNull 7))
  = Success {| s_output := []; s_exitCode := 7; s_shareUrl := None |}.
Proof.
  destruct (C10_degenerate_responses DataNull (response "" EventsNull 7))
    as (Hnull & _ & Hnone).
  split.
  - apply Hnull. reflexivity.
  - apply Hnone; [reflexivity | right; left; reflexivity].
Defined.

(** ** Lemmas on programs and their runs *)

Section Runs.

Variable w : Remote.

Lemma exec_bind {A B : Type} (p : Client A) (f : A -> Client B) :
  exec w (bind p f)
  = (value_of w (f (value_of w p)),
     calls_of w p ++ calls_of w (f (value_of w p))).
Proof.
  unfold value_of, calls_of.
  induction p as [a | cfg req k IH | cfg c k IH]; simpl.
  - now destruct (exec w (f a)).
  - rewrite IH. now destruct (exec w (k (compile w cfg req))).
  - rewrite IH. now destruct (exec w (k (share w cfg c))).
Qed.

Lemma value_of_bind {A B : Type} (p : Client A) (f : A -> Client B) :
  value_of w (bind p f) = value_of w (f (value_of w p)).
Proof. unfold value_of at 1. now rewrite exec_bind. Qed.

Lemma calls_of_bind {A B : Type} (p : Client A) (f : A -> Client B) :
  calls_of w (bind p f) = calls_of w p ++ calls_of w (f (value_of w p)).
Proof. unfold calls_of at 1. now rewrite exec_bind. Qed.

Lemma exec_pair {A : Type} (p : Client A) :
  exec w p = (value_of w p, calls_of w p).
Proof. unfold value_of, calls_of. now destruct (exec w p). Qed.

Variable config : PartialConfig.

Lemma validateGoCode_valid (c : jsstring) :
  isGoCode (JString c) = true -> validateGoCode c = Ok c.
Proof. intros H. unfold validateGoCode. now rewrite H. Qed.

Lemma validateGoCode_invalid (c : jsstring) :
  isGoCode (JString c) = false ->
  validateGoCode c
  = Err (createGoPlaygroundError
           (str "Invalid Go code: code must be a non-empty string")
           VALIDATION_ERROR None).
Proof. intros H. unfold validateGoCode. now rewrite H. Qed.

Lemma runGoCode_valid (c : jsstring) (vet : option bool) :
  isGoCode (JString c) = true ->
  exec w (runGoCode config c vet)
  = (match compile w (finalConfig config) (run_request c vet) with
     | Resolved data => processRunResponse data
     | Rejected error => Failure (handleApiError error)
     end,
     [CompileCall (finalConfig config) (run_request c vet)]).
Proof.
  intros H. unfold runGoCode. rewrite (validateGoCode_valid _ H). simpl.
  now destruct (compile w _ _).
Qed.

Lemma runGoCode_invalid (c : jsstring) (vet : option bool) :
  isGoCode (JString c) = false ->
  runGoCode config c vet
  = Return (Failure {| f_errors := str "Invalid Go code: code must be a non-empty string";
                       f_exitCode := None; f_shareUrl := None |}).
Proof. intros H. unfold runGoCode. now rewrite (validateGoCode_invalid _ H). Qed.

Lemma shareGoCode_valid (c : jsstring) :
  isGoCode (JString c) = true ->
  exec w (shareGoCode config c)
  = (match share w (finalConfig config) c with
     | Resolved shareId =>
         Some (frontendUrl (finalConfig config) ++ str "/p/" ++ shareId)
     | Rejected _ => None
     end,
     [ShareCall (finalConfig config) c]).
Proof.
  intros H. unfold shareGoCode. rewrite (validateGoCode_valid _ H). simpl.
  now destruct (share w _ _).
Qed.

Lemma shareGoCode_rejected (c : jsstring) (e : Thrown) :
  share w (finalConfig config) c = Rejected e ->
  value_of w (shareGoCode config c) = None.
Proof.
  intros Hw. destruct (isGoCode (JString c)) eqn:H.
  - unfold value_of. now rewrite (shareGoCode_valid _ H), Hw.
  - unfold shareGoCode. now rewrite (validateGoCode_invalid _ H).
Qed.

Lemma shareGoCode_invalid (c : jsstring) :
  isGoCode (JString c) = false -> shareGoCode config c = Return None.
Proof. intros H. unfold shareGoCode. now rewrite (validateGoCode_invalid _ H). Qed.

Lemma runAndShareGoCode_invalid (c : jsstring) (vet : option bool) :
  isGoCode (JString c) = false ->
  runAndShareGoCode config c vet
  = Return (Failure {| f_errors := str "Invalid Go code: code must be a non-empty string";
                       f_exitCode := None; f_shareUrl := None |}).
Proof. intros H. unfold runAndShareGoCode. now rewrite (validateGoCode_invalid _ H). Qed.

Lemma runGoCode_default_vet (c : jsstring) (vet : option bool) :
  runGoCode config c (Some (default true vet)) = runGoCode config c vet.
Proof. now destruct vet. Qed.

Lemma runGoCode_calls (c : jsstring) (vet : option bool) :
  isGoCode (JString c) = true ->
  calls_of w (runGoCode config c vet)
  = [CompileCall (finalConfig config) (run_request c vet)].
Proof. intros H. unfold calls_of. now rewrite (runGoCode_valid _ _ H). Qed.

Lemma shareGoCode_calls (c : jsstring) :
  isGoCode (JString c) = true ->
  calls_of w (shareGoCode config c) = [ShareCall (finalConfig config) c].
Proof. intros H. unfold calls_of. now rewrite (shareGoCode_valid _ H). Qed.

Lemma runAndShareGoCode_valid (c : jsstring) (vet : option bool) :
  isGoCode (JString c) = true ->
  exec w (runAndShareGoCode config c vet)
  = (with_shareUrl (value_of w (runGoCode config c vet))
                   (value_of w (shareGoCode config c)),
     [CompileCall (finalConfig config) (run_request c vet);
      ShareCall (finalConfig config) c]).
Proof.
  intros H. unfold runAndShareGoCode. rewrite (validateGoCode_valid _ H).
  rewrite runGoCode_default_vet.
  rewrite exec_pair, !value_of_bind, !calls_of_bind.
  rewrite (runGoCode_calls _ _ H), (shareGoCode_calls _ H).
  now destruct (value_of w (runGoCode config c vet)).
Qed.

Lemma processRunResponse_no_shareUrl (d : ResponseData) :
  shareUrl (processRunResponse d) = None.
Proof.
  unfold processRunResponse.
  destruct (data_falsy d || _); [reflexivity|].
  destruct d; try reflexivity.
  destruct (negb _ && _); [reflexivity|]. simpl.
  now destruct (0 <? _)%nat.
Qed.

Lemma runGoCode_no_shareUrl (c : jsstring) (vet : option bool) :
  shareUrl (value_of w (runGoCode config c vet)) = None.
Proof.
  destruct (isGoCode (JString c)) eqn:H.
  - unfold value_of. rewrite (runGoCode_valid _ _ H). simpl.
    destruct (compile w _ _) as [d|e].
    + apply processRunResponse_no_shareUrl.
    + now destruct e.
  - now rewrite (runGoCode_invalid _ _ H).
Qed.

(** Whether or not the code is valid, the composition is the run result
    with the outcome of the share operation attached. *)
Lemma runAndShareGoCode_merge (c : jsstring) (vet : option bool) :
  value_of w (runAndShareGoCode config c vet)
  = with_shareUrl (value_of w (runGoCode config c vet))
                  (value_of w (shareGoCode config c)).
Proof.
  destruct (isGoCode (JString c)) eqn:H.
  - unfold value_of at 1. now rewrite (runAndShareGoCode_valid _ _ H).
  - now rewrite (runAndShareGoCode_invalid _ _ H), (runGoCode_invalid _ _ H),
      (shareGoCode_invalid _ H).
Qed.


End Runs.

(** Attaching a link changes nothing but the link. *)
Lemma with_shareUrl_facets (r : MCPGoPlaygroundResult) (url : option ShareUrl) :
  success (with_shareUrl r url) = success r /\
  payload (with_shareUrl r url) = payload r /\
  exitCode (with_shareUrl r url) = exitCode r /\
  shareUrl (with_shareUrl r url) = url.
Proof. destruct r; repeat split. Qed.

Lemma with_shareUrl_same (r : MCPGoPlaygroundResult) :
  with_shareUrl r (shareUrl r) = r.
Proof. destruct r as [[] | []]; reflexivity. Qed.

Lemma formatRunResponse_with_shareUrl (r : MCPGoPlaygroundResult) (url : option ShareUrl) :
  formatRunResponse (with_shareUrl r url) = formatRunResponse r.
Proof. destruct r; reflexivity. Qed.

(** ** The compositor (specification, section 4.4) and the remote client
       (section 4.2) *)

(** C4: in the run-and-share composition, if the share operation yields no
    link, the merged result has the success/failure discriminant, the
    output or errors and the exit code of the execute pipeline, and no
    [shareUrl]; in particular a successful execution stays a [Success]. *)
Theorem C4_share_failure_keeps_run_result
    (w : Remote) (config : PartialConfig) (c : jsstring) (vet : option bool) :
  value_of w (shareGoCode config c) = None ->
  let run := value_of w (runGoCode config c vet) in
  let merged := value_of w (runAndShareGoCode config c vet) in
  success merged = success run /\
  payload merged = payload run /\
  exitCode merged = exitCode run /\
  shareUrl merged = None /\
  merged = run /\
  (forall out st,
     run = Success {| s_output := out; s_exitCode := st; s_shareUrl := None |} ->
     merged = Success {| s_output := out; s_exitCode := st; s_shareUrl := None |}).
Proof.
  intros Hshare run merged.
  assert (Hm : merged = with_shareUrl run None).
  { unfold merged. now rewrite runAndShareGoCode_merge, Hshare. }
  assert (Hr : with_shareUrl run None = run).
  { rewrite <- (runGoCode_no_shareUrl w config c vet) at 1.
    apply with_shareUrl_same. }
  rewrite Hm.
  destruct (with_shareUrl_facets run None) as (H1 & H2 & H3 & H4).
  repeat split; try assumption.
  intros out st Hrun. now rewrite Hr.
Qed.

(** C4 at a service that runs the program and answers 503 to the share
    request. *)
Lemma C4_share_failure_keeps_run_result_witness :
  value_of share_down_remote (shareGoCode noConfig hello_code) = None /\
  value_of share_down_remote (runAndShareGoCode noConfig hello_code None)
  = Success {| s_output := str "hello"; s_exitCode := 0; s_shareUrl := None |}.
Proof.
  split; [reflexivity|].
  destruct (C4_share_failure_keeps_run_result
              share_down_remote noConfig hello_code None)
    as (_ & _ & _ & _ & _ & Hsuccess).
  - reflexivity.
  - apply Hsuccess. reflexivity.
Defined.

(** C6, as stated, fails: when the execute request times out, the result is
    a [Failure] whose only content is an [HTTP Error] text; it names no
    [NETWORK_ERROR], and neither does the answer of the [run_go_code]
    tool. *)
Lemma C6_timeout_counterexample :
  value_of timeout_remote (runGoCode noConfig hello_code None)
  = Failure {| f_errors := str "HTTP Error: unknown - timeout of 30000ms exceeded";
               f_exitCode := None;
               f_shareUrl := None |} /\
  names_code NETWORK_ERROR
             (value_of timeout_remote (runGoCode noConfig hello_code None))
  = false /\
  List.map (fun item => contains (str "NETWORK_ERROR") (text item))
           (content (value_of timeout_remote
                       (callTool (str "run_go_code")
                                 (JObject {[ str "code" := JString hello_code ]}))))
  = [false].
Proof. repeat split. Qed.

Lemma contains_after_prefix (h : N) (needle prefix rest : jsstring) :
  Forall (fun c => c <> h) prefix ->
  contains (h :: needle) (prefix ++ rest) = contains (h :: needle) rest.
Proof.
  induction 1 as [|c prefix Hc _ IH]; [reflexivity|].
  change (contains (h :: needle) ((c :: prefix) ++ rest))
    with (((h =? c) && starts_with needle (prefix ++ rest))
          || contains (h :: needle) (prefix ++ rest)).
  assert (Hne : (h =? c) = false) by (apply N.eqb_neq; congruence).
  now rewrite Hne, IH.
Qed.

Lemma number_to_string_no_letter (z : Z) :
  Forall (fun c => c <> 78) (number_to_string z).
Proof.
  assert (Hd : forall d, Forall (fun c => c <> 78) (uint_units d)).
  { intros d. apply (List.Forall_impl _ (P := fun c => 48 <= c <= 57));
      [intros c Hc; lia | apply uint_units_digits]. }
  unfold number_to_string. destruct (Z.to_int z); [apply Hd|].
  constructor; [lia | apply Hd].
Qed.

Lemma http_error_names_code (status : option Z) (msg : jsstring) :
  contains (str "NETWORK_ERROR")
           (str "HTTP Error: " ++
            match status with
            | Some st => number_to_string st
            | None => str "unknown"
            end ++ str " - " ++ msg)
  = contains (str "NETWORK_ERROR") msg.
Proof.
  change (str "NETWORK_ERROR") with (78 :: str "ETWORK_ERROR").
  rewrite !app_assoc. apply contains_after_prefix.
  repeat apply Forall_app_2.
  - vm_compute. repeat constructor; discriminate.
  - destruct status as [st|].
    + apply number_to_string_no_letter.
    + vm_compute. repeat constructor; discriminate.
  - vm_compute. repeat constructor; discriminate.
Qed.

(** C6, amended: for every transport failure of the execute operation
    (timeout, non-2xx status, connection error) the operation returns,
    rather than throws, a [Failure] without exit code whose errors are
    [HTTP Error: <status> - <message>], where [<status>] is the HTTP status
    code when one is available and [unknown] otherwise; the code adds no
    [NETWORK_ERROR]: the result names that code only when the message of
    the transport error itself contains it. *)
Theorem C6_transport_failure
    (w : Remote) (config : PartialConfig) (c : jsstring) (vet : option bool)
    (status : option Z) (msg : jsstring) :
  isGoCode (JString c) = true ->
  compile w (finalConfig config) (run_request c vet)
  = Rejected (AxiosError status msg) ->
  value_of w (runGoCode config c vet)
  = Failure {| f_errors :=
                 str "HTTP Error: " ++
                 match status with
                 | Some st => number_to_string st
                 | None => str "unknown"
                 end ++ str " - " ++ msg;
               f_exitCode := None;
               f_shareUrl := None |} /\
  names_code NETWORK_ERROR (value_of w (runGoCode config c vet))
  = contains (str "NETWORK_ERROR") msg.
Proof.
  intros Hc Hw.
  assert (Hr : value_of w (runGoCode config c vet)
               = Failure (handleApiError (AxiosError status msg))).
  { unfold value_of. now rewrite (runGoCode_valid _ _ _ _ Hc), Hw. }
  rewrite Hr. split; [reflexivity|].
  apply http_error_names_code.
Qed.

(** C6 at a service whose compile endpoint answers 502. *)
Lemma C6_transport_failure_witness :
  value_of bad_gateway_remote (runGoCode noConfig hello_code None)
  = Failure {| f_errors := str "HTTP Error: 502 - Request failed with status code 502";
               f_exitCode := None;
               f_shareUrl := None |} /\
  names_code NETWORK_ERROR
             (value_of bad_gateway_remote (runGoCode noConfig hello_code None))
  = false.
Proof.
  destruct (C6_transport_failure bad_gateway_remote noConfig hello_code None
              (Some 502%Z) (str "Request failed with status code 502"))
    as [Hresult Hcode].
  - reflexivity.
  - reflexivity.
  - split; [exact Hresult | exact Hcode].
Defined.

(** C7: if the share operation succeeds with identifier [shareId], the
    share URL is the configured frontend origin (the override of the
    configuration, else [https://go.dev/play]) followed by [/p/] and the
    identifier, and the run-and-share composition attaches that URL to the
    result of the execute pipeline, be it a [Success] or a [Failure],
    leaving the rest of it as it is. *)
Theorem C7_share_url_attached
    (w : Remote) (config : PartialConfig) (c : jsstring) (vet : option bool)
    (shareId : jsstring) :
  isGoCode (JString c) = true ->
  share w (finalConfig config) c = Resolved shareId ->
  let origin := default (str "https://go.dev/play") (p_frontendUrl config) in
  let url := origin ++ str "/p/" ++ shareId in
  let run := value_of w (runGoCode config c vet) in
  let merged := value_of w (runAndShareGoCode config c vet) in
  value_of w (shareGoCode config c) = Some url /\
  merged = with_shareUrl run (Some url) /\
  shareUrl merged = Some url /\
  success merged = success run /\
  payload merged = payload run /\
  exitCode merged = exitCode run.
Proof.
  intros Hc Hw origin url run merged.
  assert (Hs : value_of w (shareGoCode config c) = Some url).
  { unfold value_of. now rewrite (shareGoCode_valid _ _ _ Hc), Hw. }
  assert (Hm : merged = with_shareUrl run (Some url)).
  { unfold merged. now rewrite runAndShareGoCode_merge, Hs. }
  destruct (with_shareUrl_facets run (Some url)) as (H1 & H2 & H3 & H4).
  rewrite Hm. repeat split; assumption.
Qed.

(** C7 at a service that shares the program under [abc123]. *)
Lemma C7_share_url_attached_witness :
  value_of friendly_remote (shareGoCode noConfig hello_code)
  = Some (str "https://go.dev/play/p/abc123") /\
  value_of friendly_remote (runAndShareGoCode noConfig hello_code None)
  = Success {| s_output := str "hello"; s_exitCode := 0;
               s_shareUrl := Some (str "https://go.dev/play/p/abc123") |}.
Proof.
  destruct (C7_share_url_attached friendly_remote noConfig hello_code None
              (str "abc123")) as (Hs & Hm & _).
  - reflexivity.
  - reflexivity.
  - split; [exact Hs | exact Hm].
Defined.

(** ** The tool router (specification, section 4.6) *)

Lemma isValidToolName_narrows (name : jsstring) :
  isValidToolName (JString name) = true ->
  exists t, as_ToolName name = Some t /\ tool_name_string t = name.
Proof.
  unfold isValidToolName, includes, TOOL_NAMES, as_ToolName. simpl.
  intros H.
  repeat (case_bool_decide; [eexists; split; [reflexivity | assumption] |]).
  discriminate.
Qed.

Lemma callTool_known (t : ToolName) (args : JsValue) :
  callTool (tool_name_string t) args = router t args.
Proof. destruct t; reflexivity. Qed.

Lemma callTool_unknown (name : jsstring) (args : JsValue) :
  isValidToolName (JString name) = false ->
  callTool name args
  = Return (error_response VALIDATION_ERROR (str "Unknown tool: " ++ name)).
Proof. intros H. unfold callTool. now rewrite H. Qed.

Lemma router_invalid_code (t : ToolName) (args : JsValue) :
  isGoCode (get_property (str "code") args) = false ->
  router t args
  = Return (error_response VALIDATION_ERROR
              (str "Invalid arguments for " ++ tool_name_string t)).
Proof.
  intros H.
  destruct t; unfold router, isRunGoCodeArgs, isShareGoCodeArgs,
    isRunAndShareGoCodeArgs; rewrite H, ?andb_false_r; reflexivity.
Qed.

(** C5: when the [code] argument of a call fails validation (it is not a
    string that is non-empty after trimming), each of the three tools
    answers with the single error [Error [VALIDATION_ERROR]: Invalid
    arguments for <tool>] and sends no request; moreover the three client
    operations themselves, handed such a code, stop at the
    [VALIDATION_ERROR] of [validateGoCode] and send neither the execute nor
    the share request: the two that run code return the failure with the
    message of that error, and [shareGoCode] returns no link. *)
Theorem C5_validation_gate
    (w : Remote) (t : ToolName) (args : JsValue)
    (config : PartialConfig) (c : jsstring) (vet : option bool) :
  (isGoCode (get_property (str "code") args) = false ->
   exec w (callTool (tool_name_string t) args)
   = (error_response VALIDATION_ERROR
        (str "Invalid arguments for " ++ tool_name_string t), [])) /\
  (isGoCode (JString c) = false ->
   exists e,
     validateGoCode c = Err e /\ code e = VALIDATION_ERROR /\
     exec w (runGoCode config c vet)
     = (Failure {| f_errors := message e; f_exitCode := None; f_shareUrl := None |}, []) /\
     exec w (shareGoCode config c) = (None, []) /\
     exec w (runAndShareGoCode config c vet)
     = (Failure {| f_errors := message e; f_exitCode := None; f_shareUrl := None |}, [])).
Proof.
  split.
  - intros H. now rewrite callTool_known, (router_invalid_code _ _ H).
  - intros H. eexists. split; [apply (validateGoCode_invalid _ H)|].
    split; [reflexivity|]. split; [|split].
    + now rewrite (runGoCode_invalid _ _ _ H).
    + now rewrite (shareGoCode_invalid _ _ H).
    + now rewrite (runAndShareGoCode_invalid _ _ _ H).
Qed.

(** C5 at a call of [share_go_code] whose code is blank, against a service
    that would answer. *)
Lemma C5_validation_gate_witness :
  exec friendly_remote
       (callTool (str "share_go_code")
                 (JObject {[ str "code" := JString (str "  ") ]}))
  = (error_response VALIDATION_ERROR (str "Invalid arguments for share_go_code"), [])
  /\ calls_of friendly_remote (runAndShareGoCode noConfig (str "  ") None) = [].
Proof.
  destruct (C5_validation_gate friendly_remote SHARE_GO_CODE
              (JObject {[ str "code" := JString (str "  ") ]})
              noConfig (str "  ") None) as (Htool & Hclient).
  split.
  - apply Htool. vm_compute. reflexivity.
  - destruct Hclient as (e & _ & _ & _ & _ & Hboth).
    + vm_compute. reflexivity.
    + unfold calls_of. now rewrite Hboth.
Defined.

(** C8: for every tool name other than the three known literals, the router
    answers with the uniform error [Error [VALIDATION_ERROR]: Unknown tool:
    <name>] and sends no request. *)
Theorem C8_unknown_tool (w : Remote) (name : jsstring) (args : JsValue) :
  name <> str "run_go_code" ->
  name <> str "share_go_code" ->
  name <> str "run_and_share_go_code" ->
  exec w (callTool name args)
  = (error_response VALIDATION_ERROR (str "Unknown tool: " ++ name), []).
Proof.
  intros H1 H2 H3.
  rewrite callTool_unknown; [reflexivity|].
  unfold isValidToolName, includes, TOOL_NAMES. simpl.
  rewrite !bool_decide_eq_false_2; [reflexivity | | |]; congruence.
Qed.

(** C8 at the tool name [delete_everything]. *)
Lemma C8_unknown_tool_witness :
  exec friendly_remote
       (callTool (str "delete_everything")
                 (JObject {[ str "code" := JString hello_code ]}))
  = (error_response VALIDATION_ERROR (str "Unknown tool: delete_everything"), []).
Proof.
  apply (C8_unknown_tool friendly_remote (str "delete_everything")).
  - vm_compute. discriminate.
  - vm_compute. discriminate.
  - vm_compute. discriminate.
Defined.

(** ** The presenter (specification, section 4.5) *)

Lemma uint_units_inj (d1 d2 : Decimal.uint) :
  uint_units d1 = uint_units d2 -> d1 = d2.
Proof.
  revert d2. induction d1 as [|d1 IH|d1 IH|d1 IH|d1 IH|d1 IH|d1 IH|d1 IH|d1 IH|d1 IH|d1 IH];
    intros [|d2|d2|d2|d2|d2|d2|d2|d2|d2|d2]; simpl; intros H;
    try discriminate H; try reflexivity;
    injection H as H; f_equal; now apply IH.
Qed.

Lemma number_to_string_inj (a b : Z) :
  number_to_string a = number_to_string b -> a = b.
Proof.
  unfold number_to_string. intros H.
  rewrite <- (DecimalZ.of_to a), <- (DecimalZ.of_to b).
  destruct (Z.to_int a) as [da|da], (Z.to_int b) as [db|db]; f_equal.
  - f_equal. now apply uint_units_inj.
  - destruct da; discriminate H.
  - destruct db; discriminate H.
  - injection H as H. f_equal. now apply uint_units_inj.
Qed.

Lemma exit_code_line_inj (a b : Z) : exit_code_line a = exit_code_line b -> a = b.
Proof.
  unfold exit_code_line. intros H.
  apply app_inv_head in H. now apply number_to_string_inj.
Qed.

Lemma formatFailureResponse_shape (f : MCPGoPlaygroundFailure) :
  formatFailureResponse f
  = failure_report_head (f_errors f) ++
    match f_exitCode f with
    | Some st => LF ++ exit_code_line st
    | None => []
    end.
Proof.
  unfold formatFailureResponse, failure_report_head.
  destruct (f_exitCode f) as [st|].
  - cbn [app join]. rewrite <- !app_assoc. reflexivity.
  - cbn [app join]. rewrite <- !app_assoc, app_nil_r. reflexivity.
Qed.

Lemma failure_report_head_ends (errors : jsstring) :
  exists body, failure_report_head errors = body ++ LF ++ [].
Proof.
  unfold failure_report_head.
  eexists (CROSS_MARK ++ str " Code execution failed!" ++ LF ++ LF ++
           str "**Errors:**" ++ LF ++ str "```" ++ LF ++ errors ++ LF ++ str "```").
  rewrite <- !app_assoc. reflexivity.
Qed.

Lemma last_line_failure_report (f : MCPGoPlaygroundFailure) :
  last_line (formatFailureResponse f)
  = match f_exitCode f with
    | Some st => exit_code_line st
    | None => []
    end.
Proof.
  rewrite formatFailureResponse_shape.
  destruct (f_exitCode f) as [st|].
  - apply last_line_after, exit_code_line_one_line.
  - destruct (failure_report_head_ends (f_errors f)) as [body ->].
    rewrite app_nil_r. apply last_line_after. constructor.
Qed.



(** * Further properties of the code *)

(** ** The argument validator (types.ts) *)

Lemma trimStart_all_blank (s : jsstring) :
  is_empty_string (trimStart s) = forallb isWhiteSpace s.
Proof.
  induction s as [|c s IH]; [reflexivity|].
  simpl. destruct (isWhiteSpace c); [exact IH | reflexivity].
Qed.

Lemma forallb_trimStart (s : jsstring) :
  forallb isWhiteSpace (trimStart s) = forallb isWhiteSpace s.
Proof.
  induction s as [|c s IH]; [reflexivity|].
  simpl. destruct (isWhiteSpace c) eqn:Hc; [exact IH|].
  simpl. now rewrite Hc.
Qed.

Lemma forallb_rev {A : Type} (f : A -> bool) (l : list A) :
  forallb f (rev l) = forallb f l.
Proof.
  induction l as [|x l IH]; [reflexivity|].
  simpl. rewrite forallb_app, IH. simpl.
  rewrite andb_true_r. apply andb_comm.
Qed.

Lemma is_empty_string_rev (s : jsstring) :
  is_empty_string (rev s) = is_empty_string s.
Proof. destruct s as [|c s]; [reflexivity|]. simpl. now destruct (rev s). Qed.

Lemma trim_all_blank (s : jsstring) :
  is_empty_string (trim s) = forallb isWhiteSpace s.
Proof.
  unfold trim, trimEnd.
  now rewrite is_empty_string_rev, trimStart_all_blank, forallb_rev,
    forallb_trimStart.
Qed.

Lemma length_positive (s : jsstring) :
  (0 <? length s)%nat = negb (is_empty_string s).
Proof. now destruct s. Qed.

Lemma isGoCode_string (s : jsstring) :
  isGoCode (JString s) = negb (forallb isWhiteSpace s).
Proof. simpl. now rewrite length_positive, trim_all_blank. Qed.

Lemma isGoCode_visible (s : jsstring) :
  isGoCode (JString s) = true <-> Exists visible s.
Proof.
  rewrite isGoCode_string, negb_true_iff. unfold visible.
  induction s as [|c s IH]; simpl.
  - split; [discriminate | intros H; inversion H].
  - destruct (isWhiteSpace c) eqn:Hc; simpl.
    + rewrite IH. split; [now right|].
      intros H. inversion H; subst; [congruence | assumption].
    + split; [now left | reflexivity].
Qed.

Lemma isGoCode_blank (s : jsstring) :
  isGoCode (JString s) = false <-> Forall (fun c => isWhiteSpace c = true) s.
Proof.
  rewrite isGoCode_string, negb_false_iff, forallb_forall, List.Forall_forall.
  reflexivity.
Qed.

(** X1: a value is accepted as Go code exactly when it is a string with at
    least one code unit that is not white space; [validateGoCode] then
    returns the string as it is, white space at its ends included, and
    rejects a string of white space only (the empty one among them) with a
    [VALIDATION_ERROR] that carries no status code. *)
Theorem X1_code_validation (v : JsValue) (c : jsstring) :
  (isGoCode v = true <-> exists s, v = JString s /\ Exists visible s) /\
  (Exists visible c -> validateGoCode c = Ok c) /\
  (Forall (fun u => isWhiteSpace u = true) c ->
   exists e, validateGoCode c = Err e /\
             code e = VALIDATION_ERROR /\ statusCode e = None).
Proof.
  split; [|split].
  - split.
    + destruct v as [| | | |s| |]; try discriminate.
      intros H. exists s. split; [reflexivity | now apply isGoCode_visible].
    + intros (s & -> & H). now apply isGoCode_visible.
  - intros H. now apply validateGoCode_valid, isGoCode_visible.
  - intros H. apply isGoCode_blank in H.
    rewrite (validateGoCode_invalid c H). eexists. repeat split.
Qed.

(** X1 at a program surrounded by white space and at a blank string. *)
Lemma X1_code_validation_witness :
  validateGoCode (str "  package main  ") = Ok (str "  package main  ") /\
  exists e, validateGoCode [0x20; 0x0A; 0xA0] = Err e /\
            code e = VALIDATION_ERROR /\ statusCode e = None.
Proof.
  destruct (X1_code_validation JNull (str "  package main  ")) as (_ & Hok & _).
  destruct (X1_code_validation JNull [0x20; 0x0A; 0xA0]) as (_ & _ & Herr).
  split.
  - apply Hok. vm_compute. do 2 apply Exists_cons_tl. apply Exists_cons_hd.
    reflexivity.
  - apply Herr. vm_compute. repeat constructor.
Defined.

Lemma isRunGoCodeArgs_split (args : JsValue) :
  isRunGoCodeArgs args
  = isShareGoCodeArgs args &&
    (negb (has_property (str "withVet") args) ||
     JsType_eqb (typeof (get_property (str "withVet") args)) TBoolean).
Proof. reflexivity. Qed.

Lemma isShareGoCodeArgs_object (args : JsValue) :
  isShareGoCodeArgs args = true <->
  exists props s,
    args = JObject props /\
    props !! str "code" = Some (JString s) /\
    Exists visible s.
Proof.
  split.
  - destruct args as [| | | | | |props]; try discriminate.
    unfold isShareGoCodeArgs, has_property, get_property. simpl.
    destruct (props !! str "code") as [v|] eqn:Hc; [|discriminate].
    intros H. apply andb_true_iff in H as [_ H]. simpl in H.
    destruct v as [| | | |s| |]; try discriminate.
    exists props, s. split; [reflexivity|]. split; [exact Hc|].
    now apply isGoCode_visible.
  - intros (props & s & -> & Hc & Hs).
    unfold isShareGoCodeArgs, has_property, get_property. rewrite Hc. simpl.
    apply isGoCode_visible in Hs. simpl in Hs. now rewrite Hs.
Qed.

Lemma typeof_boolean (v : JsValue) :
  JsType_eqb (typeof v) TBoolean = true <-> exists b, v = JBool b.
Proof.
  split; [|intros [b ->]; reflexivity].
  destruct v; try discriminate. intros _. now eexists.
Qed.

Lemma withVet_condition (props : gmap (list N) JsValue) :
  negb (has_property (str "withVet") (JObject props)) ||
  JsType_eqb (typeof (get_property (str "withVet") (JObject props))) TBoolean
  = true <->
  exists vet : option bool, props !! str "withVet" = JBool <$> vet.
Proof.
  unfold has_property, get_property.
  destruct (props !! str "withVet") as [v|]; simpl.
  - rewrite typeof_boolean. split.
    + intros [b ->]. now exists (Some b).
    + intros [[b|] [= ->]]. now exists b.
  - split; [now exists None | reflexivity].
Qed.

Lemma isRunGoCodeArgs_object (args : JsValue) :
  isRunGoCodeArgs args = true <->
  exists (props : gmap (list N) JsValue) (s : jsstring) (vet : option bool),
    args = JObject props /\
    props !! str "code" = Some (JString s) /\
    Exists visible s /\
    props !! str "withVet" = JBool <$> vet.
Proof.
  rewrite isRunGoCodeArgs_split, andb_true_iff, isShareGoCodeArgs_object.
  split.
  - intros [(props & s & -> & Hc & Hs) Hv].
    apply withVet_condition in Hv as [vet Hv].
    now exists props, s, vet.
  - intros (props & s & vet & -> & Hc & Hs & Hv). split.
    + now exists props, s.
    + apply withVet_condition. now exists vet.
Qed.

(** X2: [isRunGoCodeArgs] accepts exactly the objects whose [code] is a
    string with a code unit that is not white space and whose [withVet] is
    absent or a boolean; [null], arrays and primitive values are rejected,
    and so is an object whose [withVet] is present with any other value
    ([null] and [undefined] included). *)
Theorem X2_run_arguments (args : JsValue) :
  isRunGoCodeArgs args = true <->
  exists (props : gmap (list N) JsValue) (s : jsstring) (vet : option bool),
    args = JObject props /\
    props !! str "code" = Some (JString s) /\
    Exists visible s /\
    props !! str "withVet" = JBool <$> vet.
Proof. apply isRunGoCodeArgs_object. Qed.

(** X3: the three guards are nested: [run_and_share_go_code] accepts exactly
    what [run_go_code] accepts, and everything that either accepts is
    accepted by [share_go_code], whose guard does not look at [withVet]. *)
Theorem X3_guards_nested (args : JsValue) :
  isRunAndShareGoCodeArgs args = isRunGoCodeArgs args /\
  (isRunGoCodeArgs args = true -> isShareGoCodeArgs args = true) /\
  (isShareGoCodeArgs args = true ->
   isRunGoCodeArgs args = false ->
   has_property (str "withVet") args = true /\
   typeof (get_property (str "withVet") args) <> TBoolean).
Proof.
  split; [reflexivity|]. rewrite isRunGoCodeArgs_split. split.
  - intros H. now apply andb_true_iff in H as [H _].
  - intros -> H. simpl in H. apply orb_false_iff in H as [Hp Ht].
    split.
    + now apply negb_false_iff.
    + intros Heq. rewrite Heq in Ht. discriminate.
Qed.

(** X3 at arguments with a [withVet] that is a string. *)
Lemma X3_guards_nested_witness :
  let args := JObject {[ str "code" := JString hello_code;
                         str "withVet" := JString (str "yes") ]} in
  isShareGoCodeArgs args = true /\ isRunAndShareGoCodeArgs args = false /\
  typeof (get_property (str "withVet") args) <> TBoolean.
Proof.
  intros args.
  destruct (X3_guards_nested args) as (Heq & _ & Hshare).
  destruct Hshare as (_ & Hv).
  - vm_compute. reflexivity.
  - vm_compute. reflexivity.
  - split; [vm_compute; reflexivity|]. split; [|exact Hv].
    rewrite Heq. vm_compute. reflexivity.
Defined.

Lemma get_property_insert_ne
    (k key : jsstring) (v : JsValue) (props : gmap (list N) JsValue) :
  key <> k ->
  get_property k (JObject (<[key := v]> props)) = get_property k (JObject props).
Proof. intros H. unfold get_property. now rewrite lookup_insert_ne. Qed.

Lemma has_property_insert_ne
    (k key : jsstring) (v : JsValue) (props : gmap (list N) JsValue) :
  key <> k ->
  has_property k (JObject (<[key := v]> props)) = has_property k (JObject props).
Proof. intros H. unfold has_property. now rewrite lookup_insert_ne. Qed.

Lemma router_extra_property
    (t : ToolName) (key : jsstring) (v : JsValue) (props : gmap (list N) JsValue) :
  key <> str "code" ->
  key <> str "withVet" ->
  router t (JObject (<[key := v]> props)) = router t (JObject props).
Proof.
  intros Hc Hv.
  destruct t; unfold router, isRunGoCodeArgs, isShareGoCodeArgs,
    isRunAndShareGoCodeArgs, runGoCodeHandler, shareGoCodeHandler,
    runAndShareGoCodeHandler, args_code, args_withVet;
    rewrite !(get_property_insert_ne _ _ _ _ Hc), ?(get_property_insert_ne _ _ _ _ Hv),
      !(has_property_insert_ne _ _ _ _ Hc), ?(has_property_insert_ne _ _ _ _ Hv);
    reflexivity.
Qed.

(** X4: a property of the argument bag other than [code] and [withVet] is
    ignored: adding it, or changing it, changes neither the verdict of the
    guards nor the answer of any tool nor the requests that are sent. *)
Theorem X4_extra_arguments_ignored
    (w : Remote) (name key : jsstring) (v : JsValue)
    (props : gmap (list N) JsValue) :
  key <> str "code" ->
  key <> str "withVet" ->
  (forall t, tool_guard t (JObject (<[key := v]> props))
             = tool_guard t (JObject props)) /\
  exec w (callTool name (JObject (<[key := v]> props)))
  = exec w (callTool name (JObject props)).
Proof.
  intros Hc Hv. split.
  - intros t.
    destruct t; unfold tool_guard, isRunGoCodeArgs, isShareGoCodeArgs,
      isRunAndShareGoCodeArgs;
      rewrite !(get_property_insert_ne _ _ _ _ Hc), ?(get_property_insert_ne _ _ _ _ Hv),
        !(has_property_insert_ne _ _ _ _ Hc), ?(has_property_insert_ne _ _ _ _ Hv);
      reflexivity.
  - unfold callTool.
    destruct (negb (isValidToolName (JString name))); [reflexivity|].
    destruct (as_ToolName name) as [t|]; [|reflexivity].
    now rewrite router_extra_property.
Qed.

(** X4 at a call of [share_go_code] with a stray [language] argument. *)
Lemma X4_extra_arguments_ignored_witness :
  exec friendly_remote
       (callTool (str "share_go_code")
          (JObject (<[ str "language" := JString (str "go") ]>
                      {[ str "code" := JString hello_code ]})))
  = exec friendly_remote
       (callTool (str "share_go_code")
          (JObject {[ str "code" := JString hello_code ]})).
Proof.
  apply (X4_extra_arguments_ignored friendly_remote (str "share_go_code")
           (str "language") (JString (str "go"))).
  - vm_compute. discriminate.
  - vm_compute. discriminate.
Defined.

(** X5: a [withVet] argument that is present but not a boolean makes
    [run_go_code] and [run_and_share_go_code] answer [Error
    [VALIDATION_ERROR]: Invalid arguments for <tool>] without sending a
    request, however valid the code is. *)
Theorem X5_withVet_must_be_boolean
    (w : Remote) (t : ToolName) (props : gmap (list N) JsValue) (v : JsValue) :
  t <> SHARE_GO_CODE ->
  props !! str "withVet" = Some v ->
  typeof v <> TBoolean ->
  exec w (callTool (tool_name_string t) (JObject props))
  = (error_response VALIDATION_ERROR
       (str "Invalid arguments for " ++ tool_name_string t), []).
Proof.
  intros Ht Hv Hty. rewrite callTool_known.
  assert (Hg : negb (has_property (str "withVet") (JObject props)) ||
               JsType_eqb (typeof (get_property (str "withVet") (JObject props)))
                          TBoolean = false).
  { unfold has_property, get_property. rewrite Hv. simpl.
    destruct (typeof v); try reflexivity. now contradiction Hty. }
  destruct t; [| now contradiction Ht |];
    unfold router; rewrite ?isRunGoCodeArgs_split;
    change (isRunAndShareGoCodeArgs (JObject props))
      with (isRunGoCodeArgs (JObject props));
    rewrite ?isRunGoCodeArgs_split, Hg, andb_false_r; reflexivity.
Qed.

(** X5 at a call of [run_go_code] with [withVet: null]. *)
Lemma X5_withVet_must_be_boolean_witness :
  exec friendly_remote
       (callTool (str "run_go_code")
          (JObject {[ str "code" := JString hello_code; str "withVet" := JNull ]}))
  = (error_response VALIDATION_ERROR (str "Invalid arguments for run_go_code"), []).
Proof.
  apply (X5_withVet_must_be_boolean friendly_remote RUN_GO_CODE _ JNull).
  - discriminate.
  - vm_compute. reflexivity.
  - discriminate.
Defined.

(** ** Tool names and the advertised tools (types.ts, mcp-server.ts) *)

Lemma as_ToolName_spec (name : jsstring) (t : ToolName) :
  as_ToolName name = Some t <-> tool_name_string t = name.
Proof.
  unfold as_ToolName. simpl. split.
  - repeat case_bool_decide; intros [= <-]; assumption.
  - intros <-. now destruct t.
Qed.

Lemma isValidToolName_string (name : jsstring) :
  isValidToolName (JString name) = true <-> exists t, tool_name_string t = name.
Proof.
  split.
  - intros H. apply isValidToolName_narrows in H as (t & _ & H). now exists t.
  - intros [t <-]. now destruct t.
Qed.

(** X6: a value is a valid tool name exactly when it is the string of one
    of the three tools; the narrowing to a [ToolName] inverts
    [tool_name_string], so the three literals are pairwise distinct and a
    name never selects the handler of another tool. *)
Theorem X6_tool_names (v : JsValue) (name : jsstring) (t : ToolName) :
  (isValidToolName v = true <-> exists t', v = JString (tool_name_string t')) /\
  (as_ToolName name = Some t <-> tool_name_string t = name) /\
  (forall args, callTool (tool_name_string t) args = router t args).
Proof.
  split; [|split].
  - split.
    + destruct v as [| | | |s| |]; try discriminate.
      intros H. apply isValidToolName_string in H as [t' <-]. now exists t'.
    + intros [t' ->]. now destruct t'.
  - apply as_ToolName_spec.
  - intros args. apply callTool_known.
Qed.

(** X7: the tools that the server lists are, in the same order, the names
    that [isValidToolName] accepts: a name is advertised exactly when a
    call under it reaches the router. *)
Theorem X7_advertised_tools (name : jsstring) :
  List.map tool_name createToolDefinitions = TOOL_NAMES /\
  (In name (List.map tool_name createToolDefinitions)
   <-> isValidToolName (JString name) = true).
Proof.
  split; [reflexivity|].
  rewrite isValidToolName_string. simpl. split.
  - intros [H | [H | [H | []]]];
      [exists RUN_GO_CODE | exists SHARE_GO_CODE | exists RUN_AND_SHARE_GO_CODE];
      exact H.
  - intros [[] <-]; auto.
Qed.

Lemma guard_gives_code (t : ToolName) (args : JsValue) :
  tool_guard t args = true ->
  exists props s, args = JObject props /\ props !! str "code" = Some (JString s).
Proof.
  intros H.
  assert (Hs : isShareGoCodeArgs args = true).
  { destruct t; simpl in H; try exact H;
      rewrite ?isRunGoCodeArgs_split in H;
      change (isRunAndShareGoCodeArgs args) with (isRunGoCodeArgs args) in H;
      rewrite ?isRunGoCodeArgs_split in H;
      now apply andb_true_iff in H as [H _]. }
  apply isShareGoCodeArgs_object in Hs as (props & s & -> & Hc & _).
  now exists props, s.
Qed.

Lemma guard_gives_withVet (t : ToolName) (args : JsValue) :
  t <> SHARE_GO_CODE ->
  tool_guard t args = true ->
  exists props (vet : option bool),
    args = JObject props /\ props !! str "withVet" = JBool <$> vet.
Proof.
  intros Ht H.
  assert (Hr : isRunGoCodeArgs args = true).
  { destruct t; [exact H | now contradiction Ht | exact H]. }
  apply isRunGoCodeArgs_object in Hr as (props & s & vet & -> & _ & _ & Hv).
  now exists props, vet.
Qed.

(** X8: the guards enforce the advertised input schemas: arguments that the
    guard of a tool accepts are an object, have every property the schema
    of that tool requires, and every property the schema declares is, when
    present, of the declared type; and where the schema declares a default
    for a property that is absent, the handler uses that default. *)
Theorem X8_guard_enforces_schema
    (d : Tool) (t : ToolName) (args : JsValue) :
  In d createToolDefinitions ->
  as_ToolName (tool_name d) = Some t ->
  tool_guard t args = true ->
  typeof_name (typeof args) = schema_type (inputSchema d) /\
  (forall k, In k (required (inputSchema d)) -> has_property k args = true) /\
  (forall k ps,
     In (k, ps) (properties (inputSchema d)) ->
     has_property k args = true ->
     typeof_name (typeof (get_property k args)) = ps_type ps) /\
  (forall ps dv,
     In (str "withVet", ps) (properties (inputSchema d)) ->
     ps_default ps = Some dv ->
     has_property (str "withVet") args = false ->
     JBool (args_withVet args) = dv).
Proof.
  intros Hd Ht Hg.
  destruct (guard_gives_code _ _ Hg) as (props & s & -> & Hc).
  assert (Hcode : forall k, k = str "code" ->
            has_property k (JObject props) = true /\
            typeof_name (typeof (get_property k (JObject props))) = str "string").
  { intros k ->. unfold has_property, get_property. rewrite Hc. now split. }
  assert (Hvet : t <> SHARE_GO_CODE ->
            has_property (str "withVet") (JObject props) = true ->
            typeof_name (typeof (get_property (str "withVet") (JObject props)))
            = str "boolean").
  { intros Hne Hp.
    destruct (guard_gives_withVet _ _ Hne Hg) as (props' & vet & [= <-] & Hv).
    unfold has_property, get_property in *. rewrite Hv in *.
    destruct vet; [reflexivity | discriminate Hp]. }
  assert (Hdef : has_property (str "withVet") (JObject props) = false ->
            JBool (args_withVet (JObject props)) = JBool true).
  { unfold has_property, args_withVet, get_property.
    destruct (props !! str "withVet"); [discriminate | reflexivity]. }
  simpl in Hd. destruct Hd as [<- | [<- | [<- | []]]];
    apply as_ToolName_spec in Ht; destruct t; try discriminate Ht;
    (split; [reflexivity|]); (split; [|split]).
  all: try (intros k [<- | []]; now apply Hcode).
  all: try (intros k ps [[= <- <-] | [[= <- <-] | []]] Hp;
            [now apply Hcode | now apply Hvet]).
  all: try (intros k ps [[= <- <-] | []] Hp; now apply Hcode).
  all: try (intros ps dv [[=] | [[= <-] | []]] [= <-] Hp; now apply Hdef).
  all: intros ps dv [[=] | []].
Qed.

(** X8 at the schema of [run_go_code] and arguments without [withVet]. *)
Lemma X8_guard_enforces_schema_witness :
  let args := JObject {[ str "code" := JString hello_code ]} in
  has_property (str "code") args = true /\
  typeof_name (typeof (get_property (str "code") args)) = str "string" /\
  args_withVet args = true.
Proof.
  intros args.
  destruct (X8_guard_enforces_schema
              {| tool_name := tool_name_string RUN_GO_CODE;
                 tool_description :=
                   str "Run Go code in the Go Playground and return execution results";
                 inputSchema :=
                   {| schema_type := str "object";
                      properties :=
                        [ (str "code",
                           {| ps_type := str "string";
                              ps_description := str "The Go code to execute";
                              ps_default := None |});
                          (str "withVet",
                           {| ps_type := str "boolean";
                              ps_description :=
                                str "Whether to run go vet on the code (default: true)";
                              ps_default := Some (JBool true) |}) ];
                      required := [str "code"] |} |}
              RUN_GO_CODE args) as (_ & Hreq & Hty & Hdef).
  - left. reflexivity.
  - reflexivity.
  - vm_compute. reflexivity.
  - split; [apply Hreq; left; reflexivity|]. split.
    + apply (Hty (str "code")
               {| ps_type := str "string";
                  ps_description := str "The Go code to execute";
                  ps_default := None |}).
      * left. reflexivity.
      * vm_compute. reflexivity.
    + assert (H : JBool (args_withVet args) = JBool true).
      { eapply Hdef; [right; left; reflexivity | reflexivity |].
        vm_compute. reflexivity. }
      exact (f_equal (fun v => match v with JBool b => b | _ => true end) H).
Defined.

(** ** Events and the classifier (types.ts, go-playground-client.ts) *)

Lemma stdout_text_app (a b : list GoPlaygroundEvent) :
  stdout_text (a ++ b) = stdout_text a ++ stdout_text b.
Proof.
  induction a as [|e a IH]; [reflexivity|].
  simpl. destruct (Kind e); try exact IH.
  destruct (is_empty_string (Message e)); [exact IH|].
  now rewrite IH, app_assoc.
Qed.

Lemma stdout_text_all_messages (events : list GoPlaygroundEvent) :
  stdout_text events
  = concat (List.map (fun e => Message e)
              (List.filter (fun e => EventKind_eqb (Kind e) stdout) events)).
Proof.
  induction events as [|e rest IH]; [reflexivity|].
  simpl. destruct (Kind e); simpl; try exact IH.
  destruct (Message e) as [|c m] eqn:Hm; simpl; now rewrite IH.
Qed.

Lemma stderr_or_not (events : list GoPlaygroundEvent) :
  Exists (fun e => Kind e = stderr) events \/
  Forall (fun e => Kind e <> stderr) events.
Proof.
  induction events as [|e rest [IH | IH]].
  - right. constructor.
  - left. now apply Exists_cons_tl.
  - destruct (Kind e) eqn:Hk.
    + right. constructor; [congruence | exact IH].
    + left. now apply Exists_cons_hd.
    + right. constructor; [congruence | exact IH].
Qed.

Lemma stderr_exclusive (events : list GoPlaygroundEvent) :
  Exists (fun e => Kind e = stderr) events ->
  Forall (fun e => Kind e <> stderr) events -> False.
Proof.
  intros Hex Hall. apply List.Exists_exists in Hex as (e & Hin & He).
  rewrite List.Forall_forall in Hall. exact (Hall e Hin He).
Qed.

Lemma hasErrors_stderr (events : list GoPlaygroundEvent) :
  hasErrors (processEvents events) = true
  <-> Exists (fun e => Kind e = stderr) events.
Proof.
  split.
  - intros H. destruct (stderr_or_not events) as [Hex | Hall]; [exact Hex|].
    exfalso. unfold processEvents in H.
    destruct events as [|e rest]; [discriminate H|].
    cbv beta iota zeta delta [length Nat.eqb hasErrors] in H.
    rewrite (no_stderr_filter _ Hall) in H. discriminate H.
  - intros Hex. unfold processEvents.
    destruct events as [|e rest]; [inversion Hex|].
    cbv beta iota zeta delta [length Nat.eqb hasErrors].
    now apply some_stderr_filter.
Qed.

(** X9: [processEvents] reports [hasErrors] exactly when some event is
    tagged [stderr]; its [output] is the concatenation of the messages of
    the [stdout] events alone, so that skipping the empty messages changes
    nothing, and the output of two streams put end to end is the output of
    the first followed by the output of the second. *)
Theorem X9_processEvents (events a b : list GoPlaygroundEvent) :
  (hasErrors (processEvents events) = true
   <-> Exists (fun e => Kind e = stderr) events) /\
  output (processEvents events)
  = concat (List.map (fun e => Message e)
              (List.filter (fun e => EventKind_eqb (Kind e) stdout) events)) /\
  output (processEvents (a ++ b))
  = output (processEvents a) ++ output (processEvents b).
Proof.
  split; [apply hasErrors_stderr|]. split.
  - rewrite processEvents_output. apply stdout_text_all_messages.
  - rewrite !processEvents_output. apply stdout_text_app.
Qed.

Lemma trim_blank (s : jsstring) :
  trim s = [] <-> Forall (fun c => isWhiteSpace c = true) s.
Proof.
  rewrite <- is_empty_string_true, trim_all_blank, forallb_forall,
    List.Forall_forall.
  reflexivity.
Qed.

Lemma processRunResponse_not_object (d : ResponseData) :
  is_object d = false -> processRunResponse d = invalid_response.
Proof.
  intros Hd. destruct d as [| |b|z|s|r]; try discriminate Hd; try reflexivity;
    unfold processRunResponse; simpl.
  - now destruct b.
  - now destruct (z =? 0)%Z.
  - now destruct (is_empty_string s).
Qed.

Lemma processRunResponse_cases (r : GoPlaygroundResponse) :
  (trim (Errors r) <> [] /\
   processRunResponse (DataObject r)
   = Failure {| f_errors := Errors r; f_exitCode := Some (Status r);
                f_shareUrl := None |}) \/
  (trim (Errors r) = [] /\
   Exists (fun e => Kind e = stderr) (events_or_empty (Events r)) /\
   processRunResponse (DataObject r)
   = Failure {| f_errors := stderr_text (events_or_empty (Events r));
                f_exitCode := Some (Status r); f_shareUrl := None |}) \/
  (trim (Errors r) = [] /\
   Forall (fun e => Kind e <> stderr) (events_or_empty (Events r)) /\
   processRunResponse (DataObject r)
   = Success {| s_output := stdout_text (events_or_empty (Events r));
                s_exitCode := Status r; s_shareUrl := None |}).
Proof.
  destruct (trim (Errors r)) as [|c t] eqn:Ht.
  - right. destruct (stderr_or_not (events_or_empty (Events r))) as [Hex | Hall].
    + left. split; [reflexivity|]. split; [exact Hex|].
      now apply processRunResponse_runtime_error.
    + right. split; [reflexivity|]. split; [exact Hall|].
      now apply processRunResponse_success.
  - left. split; [discriminate|].
    apply processRunResponse_compile_error. now rewrite Ht.
Qed.

(** X10: the classifier answers [Success] exactly for an object whose
    compile-error text is blank (empty or white space only) and whose event
    stream has no [stderr] event; whatever it answers for an object carries
    the [Status] of the response as exit code, an answer for anything else
    carries none, and no answer carries a share link. *)
Theorem X10_classifier_verdict (d : ResponseData) :
  (success (processRunResponse d) = true <->
   exists r, d = DataObject r /\
             Forall (fun c => isWhiteSpace c = true) (Errors r) /\
             Forall (fun e => Kind e <> stderr) (events_or_empty (Events r))) /\
  exitCode (processRunResponse d)
  = match d with DataObject r => Some (Status r) | _ => None end /\
  shareUrl (processRunResponse d) = None.
Proof.
  split; [|split; [|apply processRunResponse_no_shareUrl]].
  - split.
    + intros H. destruct (is_object d) eqn:Hd.
      * destruct d as [| | | | |r]; try discriminate Hd. exists r.
        split; [reflexivity|].
        destruct (processRunResponse_cases r)
          as [[_ Hr] | [(_ & _ & Hr) | (Ht & Hall & _)]];
          try (rewrite Hr in H; discriminate H).
        split; [now apply trim_blank | exact Hall].
      * rewrite (processRunResponse_not_object _ Hd) in H. discriminate H.
    + intros (r & -> & Hb & Hall). apply trim_blank in Hb.
      now rewrite (processRunResponse_success _ Hb Hall).
  - destruct (is_object d) eqn:Hd.
    + destruct d as [| | | | |r]; try discriminate Hd.
      destruct (processRunResponse_cases r)
        as [[_ ->] | [(_ & _ & ->) | (_ & _ & ->)]]; reflexivity.
    + rewrite (processRunResponse_not_object _ Hd).
      destruct d; try reflexivity. discriminate Hd.
Qed.

(** ** Reports (mcp-server.ts) *)

Lemma formatSuccessResponse_shape (r : MCPGoPlaygroundSuccess) :
  formatSuccessResponse r
  = success_report_head (s_output r) ++ LF ++ exit_code_line (s_exitCode r).
Proof.
  unfold formatSuccessResponse, success_report_head, shown_output.
  cbn [app join]. rewrite <- !app_assoc. reflexivity.
Qed.

Lemma last_line_run_report (r : MCPGoPlaygroundResult) :
  last_line (formatRunResponse r)
  = match exitCode r with
    | Some st => exit_code_line st
    | None => []
    end.
Proof.
  destruct r as [s | f]; simpl.
  - rewrite formatSuccessResponse_shape.
    apply last_line_after, exit_code_line_one_line.
  - apply last_line_failure_report.
Qed.

(** X11: whenever the playground answered with an object, the last line of
    the run report is the [Exit Code] line of the [Status] of that answer,
    for a compile error, a runtime error and a success alike; after any
    other answer the report has no [Exit Code] line and ends with the
    closing fence. *)
Theorem X11_report_shows_status (d : ResponseData) :
  last_line (formatRunResponse (processRunResponse d))
  = match d with
    | DataObject r => str "**Exit Code:** " ++ number_to_string (Status r)
    | _ => []
    end.
Proof.
  rewrite last_line_run_report.
  destruct (is_object d) eqn:Hd.
  - destruct d as [| | | | |r]; try discriminate Hd.
    destruct (processRunResponse_cases r)
      as [[_ ->] | [(_ & _ & ->) | (_ & _ & ->)]]; reflexivity.
  - rewrite (processRunResponse_not_object _ Hd).
    destruct d; try reflexivity. discriminate Hd.
Qed.

Lemma option_exit_line_inj (a b : option Z) :
  match a with Some st => exit_code_line st | None => [] end
  = match b with Some st => exit_code_line st | None => [] end ->
  a = b.
Proof.
  destruct a as [x|], b as [y|]; intros H.
  - f_equal. now apply exit_code_line_inj.
  - now apply exit_code_line_nonempty in H.
  - symmetry in H. now apply exit_code_line_nonempty in H.
  - reflexivity.
Qed.

Lemma failure_report_head_inj (e1 e2 : jsstring) :
  failure_report_head e1 = failure_report_head e2 -> e1 = e2.
Proof.
  unfold failure_report_head. intros H.
  repeat (apply app_inv_head in H).
  now apply app_inv_tail in H.
Qed.

Lemma success_report_head_inj (o1 o2 : jsstring) :
  success_report_head o1 = success_report_head o2 ->
  shown_output o1 = shown_output o2.
Proof.
  unfold success_report_head. intros H.
  repeat (apply app_inv_head in H).
  now apply app_inv_tail in H.
Qed.

Lemma formatFailureResponse_inj (f1 f2 : MCPGoPlaygroundFailure) :
  formatFailureResponse f1 = formatFailureResponse f2 ->
  f_errors f1 = f_errors f2 /\ f_exitCode f1 = f_exitCode f2.
Proof.
  intros H.
  assert (He : f_exitCode f1 = f_exitCode f2).
  { apply option_exit_line_inj. rewrite <- !last_line_failure_report.
    now rewrite H. }
  split; [|exact He].
  rewrite !formatFailureResponse_shape, He in H.
  apply app_inv_tail in H. now apply failure_report_head_inj.
Qed.

Lemma formatSuccessResponse_inj (s1 s2 : MCPGoPlaygroundSuccess) :
  formatSuccessResponse s1 = formatSuccessResponse s2 ->
  shown_output (s_output s1) = shown_output (s_output s2) /\
  s_exitCode s1 = s_exitCode s2.
Proof.
  intros H.
  assert (He : s_exitCode s1 = s_exitCode s2).
  { apply exit_code_line_inj.
    pose proof (last_line_run_report (Success s1)) as H1.
    pose proof (last_line_run_report (Success s2)) as H2.
    simpl in H1, H2. now rewrite <- H1, <- H2, H. }
  split; [|exact He].
  rewrite !formatSuccessResponse_shape, He in H.
  apply app_inv_tail in H. now apply success_report_head_inj.
Qed.

(** X12: a run report tells what it reports: two results with the same
    report are both successes or both failures, have the same exit code (or
    both none) and show the same text, the errors of a failure or the
    output of a success.  Only the share link, which the run report leaves
    out, and the difference between an empty output and the literal output
    [(no output)] are lost. *)
Theorem X12_report_faithful (r1 r2 : MCPGoPlaygroundResult) (st : Z) :
  (formatRunResponse r1 = formatRunResponse r2 ->
   success r1 = success r2 /\
   exitCode r1 = exitCode r2 /\
   shown_payload r1 = shown_payload r2) /\
  formatSuccessResponse
    {| s_output := []; s_exitCode := st; s_shareUrl := None |}
  = formatSuccessResponse
      {| s_output := str "(no output)"; s_exitCode := st; s_shareUrl := None |}.
Proof.
  split; [|reflexivity].
  destruct r1 as [s1 | f1], r2 as [s2 | f2]; simpl; intros H.
  - apply formatSuccessResponse_inj in H as [Ho He].
    split; [reflexivity|]. split; [now f_equal | exact Ho].
  - rewrite formatSuccessResponse_shape, formatFailureResponse_shape in H.
    discriminate H.
  - rewrite formatSuccessResponse_shape, formatFailureResponse_shape in H.
    discriminate H.
  - apply formatFailureResponse_inj in H as [Ho He].
    split; [reflexivity|]. split; [exact He | exact Ho].
Qed.

(** X12 at two failures that differ in their share link only. *)
Lemma X12_report_faithful_witness :
  let f1 := Failure {| f_errors := str "boom"; f_exitCode := Some 2%Z;
                       f_shareUrl := None |} in
  let f2 := Failure {| f_errors := str "boom"; f_exitCode := Some 2%Z;
                       f_shareUrl := Some (str "https://go.dev/play/p/x") |} in
  formatRunResponse f1 = formatRunResponse f2 /\
  exitCode f1 = exitCode f2 /\ shown_payload f1 = shown_payload f2.
Proof.
  intros f1 f2. split; [reflexivity|].
  destruct (X12_report_faithful f1 f2 0) as [H _].
  destruct H as (_ & He & Ho); [reflexivity|].
  split; [exact He | exact Ho].
Defined.

Lemma formatRunAndShareResponse_general (r : MCPGoPlaygroundResult) :
  formatRunAndShareResponse r
  = formatRunResponse r ++ LF ++
    match shareUrl r with
    | Some u => if is_empty_string u then share_warning else str "**Share URL:** " ++ u
    | None => share_warning
    end.
Proof.
  unfold formatRunAndShareResponse, share_warning.
  destruct (shareUrl r) as [u|]; [destruct (is_empty_string u)|]; reflexivity.
Qed.

(** X13: the run-and-share report of any result is its run report, a line
    feed and one more line: the [Share URL] line when the link is a
    non-empty string, and the warning [Failed to generate share URL] when
    the link is absent or the empty string. *)
Theorem X13_share_line_last (r : MCPGoPlaygroundResult) (u : ShareUrl) :
  (shareUrl r = None \/ shareUrl r = Some [] ->
   formatRunAndShareResponse r = formatRunResponse r ++ LF ++ share_warning /\
   last_line (formatRunAndShareResponse r) = share_warning) /\
  (shareUrl r = Some u -> u <> [] ->
   formatRunAndShareResponse r
   = formatRunResponse r ++ LF ++ str "**Share URL:** " ++ u /\
   (Forall (fun c => c <> 10) u ->
    last_line (formatRunAndShareResponse r) = str "**Share URL:** " ++ u)).
Proof.
  rewrite formatRunAndShareResponse_general. split.
  - intros H.
    assert (Hw : match shareUrl r with
                 | Some u' => if is_empty_string u' then share_warning
                              else str "**Share URL:** " ++ u'
                 | None => share_warning
                 end = share_warning).
    { destruct H as [-> | ->]; reflexivity. }
    rewrite Hw. split; [reflexivity|].
    apply last_line_after. vm_compute. repeat constructor; discriminate.
  - intros -> Hu. apply is_empty_string_false in Hu. rewrite Hu.
    split; [reflexivity|]. intros Hline.
    apply last_line_after. apply Forall_app. split; [|exact Hline].
    vm_compute. repeat constructor; discriminate.
Qed.

(** X13 at a success with an empty link and at one with a real link. *)
Lemma X13_share_line_last_witness :
  last_line (formatRunAndShareResponse
               (Success {| s_output := str "hi"; s_exitCode := 0;
                           s_shareUrl := Some [] |}))
  = share_warning /\
  last_line (formatRunAndShareResponse
               (Success {| s_output := str "hi"; s_exitCode := 0;
                           s_shareUrl := Some (str "https://go.dev/play/p/x") |}))
  = str "**Share URL:** https://go.dev/play/p/x".
Proof.
  split.
  - destruct (X13_share_line_last
                (Success {| s_output := str "hi"; s_exitCode := 0;
                            s_shareUrl := Some [] |}) []) as [H _].
    apply H. right. reflexivity.
  - destruct (X13_share_line_last
                (Success {| s_output := str "hi"; s_exitCode := 0;
                            s_shareUrl := Some (str "https://go.dev/play/p/x") |})
                (str "https://go.dev/play/p/x")) as [_ H].
    destruct H as [_ H]; [reflexivity | vm_compute; discriminate |].
    apply H. vm_compute. repeat constructor; discriminate.
Defined.

(** ** Requests (go-playground-client.ts) *)

Lemma runGoCode_calls_any
    (w : Remote) (config : PartialConfig) (c : jsstring) (vet : option bool) :
  calls_of w (runGoCode config c vet)
  = if isGoCode (JString c)
    then [CompileCall (finalConfig config) (run_request c vet)]
    else [].
Proof.
  destruct (isGoCode (JString c)) eqn:H.
  - now apply runGoCode_calls.
  - now rewrite (runGoCode_invalid _ _ _ H).
Qed.

Lemma shareGoCode_calls_any (w : Remote) (config : PartialConfig) (c : jsstring) :
  calls_of w (shareGoCode config c)
  = if isGoCode (JString c) then [ShareCall (finalConfig config) c] else [].
Proof.
  destruct (isGoCode (JString c)) eqn:H.
  - now apply shareGoCode_calls.
  - now rewrite (shareGoCode_invalid _ _ H).
Qed.

Lemma runAndShareGoCode_calls_any
    (w : Remote) (config : PartialConfig) (c : jsstring) (vet : option bool) :
  calls_of w (runAndShareGoCode config c vet)
  = calls_of w (runGoCode config c vet) ++ calls_of w (shareGoCode config c).
Proof.
  rewrite runGoCode_calls_any, shareGoCode_calls_any.
  destruct (isGoCode (JString c)) eqn:H.
  - unfold calls_of. now rewrite (runAndShareGoCode_valid _ _ _ _ H).
  - now rewrite (runAndShareGoCode_invalid _ _ _ H).
Qed.

(** X14: whatever the service answers, [runGoCode] on a valid code sends
    exactly one compile request, with [version] 2, the code as it was given
    (not trimmed) and the vet flag ([true] when none was given), and
    [shareGoCode] exactly one share request with the same code;
    [runAndShareGoCode] sends the compile request first and the share
    request second, the second also when the first was rejected or the
    program failed.  On an invalid code nothing is sent. *)
Theorem X14_requests_sent
    (w : Remote) (config : PartialConfig) (c : jsstring) (vet : option bool) :
  let compile_request :=
    CompileCall (finalConfig config)
                {| version := 2; body := c; withVet := Some (default true vet) |} in
  let share_request := ShareCall (finalConfig config) c in
  calls_of w (runGoCode config c vet)
  = (if isGoCode (JString c) then [compile_request] else []) /\
  calls_of w (shareGoCode config c)
  = (if isGoCode (JString c) then [share_request] else []) /\
  calls_of w (runAndShareGoCode config c vet)
  = (if isGoCode (JString c) then [compile_request; share_request] else []).
Proof.
  intros compile_request share_request.
  split; [apply runGoCode_calls_any|].
  split; [apply shareGoCode_calls_any|].
  rewrite runAndShareGoCode_calls_any, runGoCode_calls_any, shareGoCode_calls_any.
  now destruct (isGoCode (JString c)).
Qed.

Lemma handleApiError_text (e : Thrown) :
  f_errors (handleApiError e) <> [] /\
  f_exitCode (handleApiError e) = None /\
  f_shareUrl (handleApiError e) = None.
Proof. destruct e as [[st|] msg | g | msg | txt]; repeat split; discriminate. Qed.

(** X15: when the compile request is rejected, for whatever reason (an
    HTTP error, a [GoPlaygroundError], another [Error], a thrown value that
    is no error at all), [runGoCode] returns the failure that
    [handleApiError] builds: its errors are never empty, it has no exit
    code and no share link, and so its report ends with the closing fence,
    without an [Exit Code] line. *)
Theorem X15_rejection_is_reported
    (w : Remote) (config : PartialConfig) (c : jsstring) (vet : option bool)
    (e : Thrown) :
  isGoCode (JString c) = true ->
  compile w (finalConfig config) (run_request c vet) = Rejected e ->
  let result := value_of w (runGoCode config c vet) in
  result = Failure (handleApiError e) /\
  payload result <> [] /\
  exitCode result = None /\
  shareUrl result = None /\
  formatRunResponse result = failure_report_head (payload result) /\
  last_line (formatRunResponse result) = [].
Proof.
  intros Hc Hw result.
  assert (Hr : result = Failure (handleApiError e)).
  { unfold result, value_of. now rewrite (runGoCode_valid _ _ _ _ Hc), Hw. }
  destruct (handleApiError_text e) as (He & Hx & Hu).
  rewrite Hr. simpl. repeat split; try assumption.
  - rewrite formatFailureResponse_shape, Hx. apply app_nil_r.
  - now rewrite last_line_failure_report, Hx.
Qed.

(** X15 at a service that does not answer in time. *)
Lemma X15_rejection_is_reported_witness :
  last_line (formatRunResponse
               (value_of timeout_remote (runGoCode noConfig hello_code None)))
  = [].
Proof.
  apply (X15_rejection_is_reported timeout_remote noConfig hello_code None
           (AxiosError None (str "timeout of 30000ms exceeded"))).
  - reflexivity.
  - reflexivity.
Defined.

(** ** Tool calls, end to end (mcp-server.ts) *)

Lemma runGoCodeHandler_exec (w : Remote) (args : JsValue) :
  exec w (runGoCodeHandler args)
  = (createSuccessResponse
       (formatRunResponse
          (value_of w (runGoCode noConfig (args_code args)
                                 (Some (args_withVet args))))),
     calls_of w (runGoCode noConfig (args_code args) (Some (args_withVet args)))).
Proof.
  unfold runGoCodeHandler.
  rewrite exec_pair, value_of_bind, calls_of_bind. simpl.
  now rewrite app_nil_r.
Qed.

Lemma shareGoCodeHandler_exec (w : Remote) (args : JsValue) :
  exec w (shareGoCodeHandler args)
  = (createSuccessResponse
       (match value_of w (shareGoCode noConfig (args_code args)) with
        | Some u =>
            if is_empty_string u
            then CROSS_MARK ++ str " Failed to share code. Please try again."
            else CHECK_MARK ++ str " Code shared successfully!" ++ LF ++ LF ++
                 str "**Share URL:** " ++ u
        | None => CROSS_MARK ++ str " Failed to share code. Please try again."
        end),
     calls_of w (shareGoCode noConfig (args_code args))).
Proof.
  unfold shareGoCodeHandler.
  rewrite exec_pair, value_of_bind, calls_of_bind. simpl.
  now rewrite app_nil_r.
Qed.

Lemma runAndShareGoCodeHandler_exec (w : Remote) (args : JsValue) :
  exec w (runAndShareGoCodeHandler args)
  = (createSuccessResponse
       (formatRunAndShareResponse
          (value_of w (runAndShareGoCode noConfig (args_code args)
                                         (Some (args_withVet args))))),
     calls_of w (runAndShareGoCode noConfig (args_code args)
                                   (Some (args_withVet args)))).
Proof.
  unfold runAndShareGoCodeHandler.
  rewrite exec_pair, value_of_bind, calls_of_bind. simpl.
  now rewrite app_nil_r.
Qed.

Lemma args_of_object
    (props : gmap (list N) JsValue) (s : jsstring) (vet : option bool) :
  props !! str "code" = Some (JString s) ->
  props !! str "withVet" = JBool <$> vet ->
  args_code (JObject props) = s /\
  args_withVet (JObject props) = default true vet.
Proof.
  intros Hc Hv. unfold args_code, args_withVet, get_property.
  rewrite Hc, Hv. now destruct vet.
Qed.

(** X16: a call of [run_go_code] whose arguments hold a valid code and no
    [withVet], or a boolean one, sends one compile request to the default
    playground origin, with the code untouched and the vet flag ([true]
    by default), and answers with the run report of the classified
    response, or of the reported rejection. *)
Theorem X16_run_tool
    (w : Remote) (props : gmap (list N) JsValue) (s : jsstring) (vet : option bool) :
  props !! str "code" = Some (JString s) ->
  Exists visible s ->
  props !! str "withVet" = JBool <$> vet ->
  let request :=
    {| version := 2; body := s; withVet := Some (default true vet) |} in
  exec w (callTool (str "run_go_code") (JObject props))
  = ({| content :=
          [ {| text :=
                 formatRunResponse
                   match compile w createDefaultConfig request with
                   | Resolved data => processRunResponse data
                   | Rejected error => Failure (handleApiError error)
                   end |} ] |},
     [CompileCall createDefaultConfig request]).
Proof.
  intros Hc Hs Hv request.
  change (str "run_go_code") with (tool_name_string RUN_GO_CODE).
  rewrite callTool_known. unfold router.
  assert (Hg : isRunGoCodeArgs (JObject props) = true).
  { apply isRunGoCodeArgs_object. now exists props, s, vet. }
  rewrite Hg. simpl negb. cbv iota.
  rewrite runGoCodeHandler_exec.
  destruct (args_of_object _ _ _ Hc Hv) as [-> ->].
  apply isGoCode_visible in Hs.
  unfold value_of, calls_of. rewrite (runGoCode_valid _ _ _ _ Hs).
  reflexivity.
Qed.

(** X16 at a call without [withVet], against the friendly service. *)
Lemma X16_run_tool_witness :
  exec friendly_remote
       (callTool (str "run_go_code")
                 (JObject {[ str "code" := JString hello_code ]}))
  = ({| content :=
          [ {| text := formatRunResponse
                         (Success {| s_output := str "hello"; s_exitCode := 0;
                                     s_shareUrl := None |}) |} ] |},
     [CompileCall createDefaultConfig
        {| version := 2; body := hello_code; withVet := Some true |}]).
Proof.
  apply (X16_run_tool friendly_remote {[ str "code" := JString hello_code ]} hello_code None).
  - vm_compute. reflexivity.
  - apply Exists_cons_hd. reflexivity.
  - vm_compute. reflexivity.
Defined.

(** X17: a call of [share_go_code] whose arguments hold a valid code,
    whatever else they hold, sends one share request and no compile
    request; it answers with the link [https://go.dev/play/p/<id>] when the
    service returns the identifier [<id>], and with [Failed to share code.
    Please try again.] when the request is rejected. *)
Theorem X17_share_tool
    (w : Remote) (props : gmap (list N) JsValue) (s : jsstring) :
  props !! str "code" = Some (JString s) ->
  Exists visible s ->
  exec w (callTool (str "share_go_code") (JObject props))
  = ({| content :=
          [ {| text :=
                 match share w createDefaultConfig s with
                 | Resolved shareId =>
                     CHECK_MARK ++ str " Code shared successfully!" ++ LF ++ LF ++
                     str "**Share URL:** https://go.dev/play/p/" ++ shareId
                 | Rejected _ =>
                     CROSS_MARK ++ str " Failed to share code. Please try again."
                 end |} ] |},
     [ShareCall createDefaultConfig s]).
Proof.
  intros Hc Hs.
  change (str "share_go_code") with (tool_name_string SHARE_GO_CODE).
  rewrite callTool_known. unfold router.
  assert (Hg : isShareGoCodeArgs (JObject props) = true).
  { apply isShareGoCodeArgs_object. now exists props, s. }
  rewrite Hg. simpl negb. cbv iota.
  rewrite shareGoCodeHandler_exec.
  assert (Ha : args_code (JObject props) = s).
  { unfold args_code, get_property. now rewrite Hc. }
  rewrite Ha. apply isGoCode_visible in Hs.
  unfold value_of, calls_of. rewrite (shareGoCode_valid _ _ _ Hs).
  change (finalConfig noConfig) with createDefaultConfig.
  destruct (share w createDefaultConfig s); reflexivity.
Qed.

(** X17 at a call against a service whose share endpoint is down. *)
Lemma X17_share_tool_witness :
  exec share_down_remote
       (callTool (str "share_go_code")
                 (JObject {[ str "code" := JString hello_code ]}))
  = ({| content :=
          [ {| text := CROSS_MARK ++
                       str " Failed to share code. Please try again." |} ] |},
     [ShareCall createDefaultConfig hello_code]).
Proof.
  rewrite (X17_share_tool share_down_remote {[ str "code" := JString hello_code ]} hello_code).
  - reflexivity.
  - vm_compute. reflexivity.
  - apply Exists_cons_hd. reflexivity.
Defined.

(** X18: a call of [run_and_share_go_code] with valid arguments sends the
    compile request and then the share request, both to the default
    origin, and answers with the run report of the execution followed by
    the [Share URL] line with [https://go.dev/play/p/<id>], or by the
    warning when the share request was rejected; a rejected share request
    leaves the run report as it is. *)
Theorem X18_run_and_share_tool
    (w : Remote) (props : gmap (list N) JsValue) (s : jsstring)
    (vet : option bool) :
  props !! str "code" = Some (JString s) ->
  Exists visible s ->
  props !! str "withVet" = JBool <$> vet ->
  let request :=
    {| version := 2; body := s; withVet := Some (default true vet) |} in
  exec w (callTool (str "run_and_share_go_code") (JObject props))
  = ({| content :=
          [ {| text :=
                 formatRunResponse
                   match compile w createDefaultConfig request with
                   | Resolved data => processRunResponse data
                   | Rejected error => Failure (handleApiError error)
                   end ++ LF ++
                 match share w createDefaultConfig s with
                 | Resolved shareId =>
                     str "**Share URL:** https://go.dev/play/p/" ++ shareId
                 | Rejected _ => share_warning
                 end |} ] |},
     [CompileCall createDefaultConfig request; ShareCall createDefaultConfig s]).
Proof.
  intros Hc Hs Hv request.
  change (str "run_and_share_go_code") with (tool_name_string RUN_AND_SHARE_GO_CODE).
  rewrite callTool_known. unfold router.
  assert (Hg : isRunAndShareGoCodeArgs (JObject props) = true).
  { change (isRunGoCodeArgs (JObject props) = true).
    apply isRunGoCodeArgs_object. now exists props, s, vet. }
  rewrite Hg. simpl negb. cbv iota.
  rewrite runAndShareGoCodeHandler_exec.
  destruct (args_of_object _ _ _ Hc Hv) as [-> ->].
  apply isGoCode_visible in Hs.
  unfold value_of at 1. unfold calls_of.
  rewrite (runAndShareGoCode_valid _ _ _ _ Hs). cbn [fst snd].
  rewrite formatRunAndShareResponse_general, formatRunResponse_with_shareUrl.
  destruct (with_shareUrl_facets
              (value_of w (runGoCode noConfig s (Some (default true vet))))
              (value_of w (shareGoCode noConfig s))) as (_ & _ & _ & ->).
  unfold value_of.
  rewrite (runGoCode_valid _ _ _ _ Hs), (shareGoCode_valid _ _ _ Hs).
  change (finalConfig noConfig) with createDefaultConfig. cbn [fst snd].
  destruct (share w createDefaultConfig s); reflexivity.
Qed.

(** X18 at a service that runs the program and rejects the share request. *)
Lemma X18_run_and_share_tool_witness :
  exec share_down_remote
       (callTool (str "run_and_share_go_code")
                 (JObject {[ str "code" := JString hello_code;
                             str "withVet" := JBool false ]}))
  = ({| content :=
          [ {| text :=
                 formatRunResponse
                   (Success {| s_output := str "hello"; s_exitCode := 0;
                               s_shareUrl := None |})
                 ++ LF ++ share_warning |} ] |},
     [CompileCall createDefaultConfig
        {| version := 2; body := hello_code; withVet := Some false |};
      ShareCall createDefaultConfig hello_code]).
Proof.
  apply (X18_run_and_share_tool share_down_remote
           {[ str "code" := JString hello_code; str "withVet" := JBool false ]}
           hello_code (Some false)).
  - vm_compute. reflexivity.
  - apply Exists_cons_hd. reflexivity.
  - vm_compute. reflexivity.
Defined.

Lemma client_calls_bounded
    (w : Remote) (c : jsstring) (vet : option bool) :
  let bounded (calls : list Call) :=
    (length calls <= 2)%nat /\
    Forall (fun call => call_config call = createDefaultConfig) calls in
  bounded (calls_of w (runGoCode noConfig c vet)) /\
  bounded (calls_of w (shareGoCode noConfig c)) /\
  bounded (calls_of w (runAndShareGoCode noConfig c vet)).
Proof.
  intros bounded. unfold bounded.
  rewrite runAndShareGoCode_calls_any, runGoCode_calls_any, shareGoCode_calls_any.
  destruct (isGoCode (JString c)); simpl; repeat split;
    repeat constructor.
Qed.

(** X19: every tool call is answered, by exactly one text item: an unknown
    tool, rejected arguments, a rejected request and a failed program all
    end in a text.  A call sends at most two requests, and every request
    goes out under the default configuration (origin
    [https://play.golang.org], timeout 30000). *)
Theorem X19_every_call_answered (w : Remote) (name : jsstring) (args : JsValue) :
  length (content (value_of w (callTool name args))) = 1%nat /\
  (length (calls_of w (callTool name args)) <= 2)%nat /\
  Forall (fun call =>
            baseUrl (call_config call) = str "https://play.golang.org" /\
            timeout (call_config call) = 30000%Z)
         (calls_of w (callTool name args)).
Proof.
  assert (Hcfg : forall calls,
            Forall (fun call => call_config call = createDefaultConfig) calls ->
            Forall (fun call =>
                      baseUrl (call_config call) = str "https://play.golang.org" /\
                      timeout (call_config call) = 30000%Z) calls).
  { intros calls H. eapply List.Forall_impl; [|exact H].
    simpl. intros call ->. now split. }
  unfold callTool.
  destruct (negb (isValidToolName (JString name))).
  { repeat split; [simpl; lia | constructor]. }
  destruct (as_ToolName name) as [t|].
  2: { repeat split; [simpl; lia | constructor]. }
  destruct t; unfold router.
  - destruct (negb (isRunGoCodeArgs args)).
    { repeat split; [simpl; lia | constructor]. }
    unfold value_of, calls_of. rewrite runGoCodeHandler_exec. cbn [fst snd].
    destruct (client_calls_bounded w (args_code args) (Some (args_withVet args)))
      as ((Hn & Hc) & _ & _).
    split; [reflexivity|]. split; [exact Hn | now apply Hcfg].
  - destruct (negb (isShareGoCodeArgs args)).
    { repeat split; [simpl; lia | constructor]. }
    unfold value_of, calls_of. rewrite shareGoCodeHandler_exec. cbn [fst snd].
    destruct (client_calls_bounded w (args_code args) None)
      as (_ & (Hn & Hc) & _).
    split; [reflexivity|]. split; [exact Hn | now apply Hcfg].
  - destruct (negb (isRunAndShareGoCodeArgs args)).
    { repeat split; [simpl; lia | constructor]. }
    unfold value_of, calls_of. rewrite runAndShareGoCodeHandler_exec. cbn [fst snd].
    destruct (client_calls_bounded w (args_code args) (Some (args_withVet args)))
      as (_ & _ & (Hn & Hc)).
    split; [reflexivity|]. split; [exact Hn | now apply Hcfg].
Qed.

(** X20: in [runAndShareGoCode] the two operations do not influence each
    other: two services that answer the compile request alike give results
    with the same discriminant, text and exit code, however they answer the
    share request; and two services that answer the share request alike
    give the same share link, however the execution went. *)
Theorem X20_operations_independent
    (w1 w2 : Remote) (config : PartialConfig) (c : jsstring) (vet : option bool) :
  let merged1 := value_of w1 (runAndShareGoCode config c vet) in
  let merged2 := value_of w2 (runAndShareGoCode config c vet) in
  (compile w1 (finalConfig config) (run_request c vet)
   = compile w2 (finalConfig config) (run_request c vet) ->
   success merged1 = success merged2 /\
   payload merged1 = payload merged2 /\
   exitCode merged1 = exitCode merged2) /\
  (share w1 (finalConfig config) c = share w2 (finalConfig config) c ->
   shareUrl merged1 = shareUrl merged2).
Proof.
  intros merged1 merged2. unfold merged1, merged2.
  rewrite !runAndShareGoCode_merge.
  destruct (with_shareUrl_facets (value_of w1 (runGoCode config c vet))
              (value_of w1 (shareGoCode config c))) as (-> & -> & -> & ->).
  destruct (with_shareUrl_facets (value_of w2 (runGoCode config c vet))
              (value_of w2 (shareGoCode config c))) as (-> & -> & -> & ->).
  destruct (isGoCode (JString c)) eqn:H.
  - unfold value_of.
    rewrite !(runGoCode_valid _ _ _ _ H), !(shareGoCode_valid _ _ _ H).
    cbn [fst]. split.
    + now intros ->.
    + now intros ->.
  - rewrite !(runGoCode_invalid _ _ _ H), !(shareGoCode_invalid _ _ H).
    now split.
Qed.

(** X20 at a service that shares and one whose share endpoint is down. *)
Lemma X20_operations_independent_witness :
  payload (value_of friendly_remote (runAndShareGoCode noConfig hello_code None))
  = payload (value_of share_down_remote (runAndShareGoCode noConfig hello_code None)).
Proof.
  destruct (X20_operations_independent friendly_remote share_down_remote
              noConfig hello_code None) as [H _].
  destruct H as (_ & Hp & _); [reflexivity | exact Hp].
Defined.
